(** * idListConverter: a shallow embedding of [main.py] and [run.py]

  The converter reads CSV files with an "ID Subjektu" column and writes
  files with a single "ID" column, merged with the identifiers found in
  the [merge] folder.  The Python code is embedded as state-passing
  functions over a file system, a store of [set] objects and the standard
  output; the calls into [pathlib] and [pandas] are modelled in the
  modules [PyStr], [PathLib] and [Pandas].  The way pandas turns the text
  of a file into values is a parameter, the class [Parser]: the properties
  are proved for every parser, and applied to sample files read with the
  parser of text of the module [Samples]. *)

From Stdlib Require Import String Ascii List Arith Lia.
From stdpp Require Import base gmap strings list sorting.

(** ** Python strings *)

Module PyStr.

(** [s.endswith(suffix)] *)
Fixpoint endswith (s suffix : string) : bool :=
  String.eqb s suffix ||
  match s with
  | EmptyString => false
  | String _ s' => endswith s' suffix
  end.

(** [s.rfind(c)] for a single character [c]; [None] stands for [-1]. *)
Fixpoint rfind (c : ascii) (s : string) : option nat :=
  match s with
  | EmptyString => None
  | String a s' =>
      match rfind c s' with
      | Some i => Some (S i)
      | None => if Ascii.eqb a c then Some 0 else None
      end
  end.

(** [sorted(l)] on a list of [str]: Python compares strings by code
    point, which on the UTF-8 bytes held by [string] is the
    lexicographic byte order [String.le]. *)
Definition sorted (l : list string) : list string := merge_sort String.le l.

End PyStr.

(** ** pathlib *)

Module PathLib.

(** A path is kept as its list of parts: [Path("input")] is [["input"]]
    and [Path(".")] is [[]].  [str(p)] and [Path(s)] are inverse to each
    other on such paths and are not written in the embedding. *)
Definition Path := list string.

(** [p / n] *)
Definition joinpath (p : Path) (n : string) : Path := p ++ [n].

(** [p.parent] *)
Definition parent (p : Path) : Path := removelast p.

(** [p.name] *)
Definition name (p : Path) : string := List.last p "".

(** The index [i] of the last dot of a name when [0 < i < len(name) - 1]. *)
Definition suffix_index (n : string) : option nat :=
  match PyStr.rfind "."%char n with
  | Some i => if (0 <? i) && (i <? String.length n - 1) then Some i else None
  | None => None
  end.

(** [p.suffix] *)
Definition suffix (p : Path) : string :=
  let n := name p in
  match suffix_index n with
  | Some i => String.substring i (String.length n - i) n
  | None => ""
  end.

(** [p.stem] *)
Definition stem (p : Path) : string :=
  let n := name p in
  match suffix_index n with
  | Some i => String.substring 0 i n
  | None => n
  end.

End PathLib.

(** ** pandas *)

Module Pandas.
Import PathLib.

(** A cell of a data frame: [None] is a missing value (NaN), [Some s] a
    value whose [astype(str)] form is [s].  The program uses the values of
    a data frame through [astype(str)] only, so that a value is kept as that
    text, whatever type pandas has given to its column. *)
Definition cell := option string.
Definition Series := list cell.

(** A data frame, column by column, in column order. *)
Definition DataFrame := list (string * Series).

(** [df.columns] *)
Definition columns (df : DataFrame) : list string := df.*1.

(** [df[c]]; [None] stands for [KeyError]. *)
Fixpoint getitem (df : DataFrame) (c : string) : option Series :=
  match df with
  | [] => None
  | (c', s) :: df' => if decide (c' = c) then Some s else getitem df' c
  end.

(** [s.dropna().astype(str)] *)
Definition dropna_astype_str (s : Series) : list string := omap id s.

(** [pd.DataFrame({c: values})] for a list of [str] *)
Definition DataFrame_of_column (c : string) (values : list string) : DataFrame :=
  [(c, Some <$> values)].

(** [len(df)]: the number of rows. *)
Definition len (df : DataFrame) : nat :=
  match df with
  | [] => 0
  | (_, s) :: _ => length s
  end.

(** The text of a file: either text on which [pd.read_csv] raises (an
    empty file, a ragged or undecodable one), or CSV text, kept column by
    column as the header field and the raw text fields below it. *)
Inductive contents :=
| Malformed
| CsvText (table : list (string * list string)).

#[global] Instance contents_eq_dec : EqDecision contents.
Proof. solve_decision. Defined.

(** The fields [pd.read_csv] reads as missing by default. *)
Definition STR_NA_VALUES : list string :=
  [""; "#N/A"; "#N/A N/A"; "#NA"; "-1.#IND"; "-1.#QNAN"; "-NaN"; "-nan";
   "1.#IND"; "1.#QNAN"; "<NA>"; "N/A"; "NA"; "NULL"; "NaN"; "None"; "n/a";
   "nan"; "null"].

(** What [pd.read_csv] makes of CSV text.  pandas gives each column a
    type that it infers from all the fields of the column, and the program
    takes [astype(str)] of the values afterwards: the fields 007, 010 and 7
    are read as integers, whose texts are 7, 10 and 7; the field 1 beside an
    empty field as the float 1.0; true and FALSE as the truth values True
    and False; a header can be renamed, as a repeated name is.  These rules
    belong to pandas and not to the program, and the development is
    parametric in them: [parse_table t] is the data frame pandas builds from
    the text [t], each value under its text.  What the development relies
    on is the one law below: the text of a value that is not missing is
    never one of the markers of a missing value, the empty string among
    them (the text of a number or of a truth value is none of them, and a
    field that is one of them is read as missing). *)
Class Parser := {
  parse_table : list (string * list string) → DataFrame;
  parse_table_text : ∀ t c col x,
    (c, col) ∈ parse_table t → Some x ∈ col → x ∉ STR_NA_VALUES
}.

(** The text [df.to_csv(..., index=False)] writes: a missing value is
    written as an empty field. *)
Definition render_table (df : DataFrame) : list (string * list string) :=
  (λ col : string * Series, (col.1, default "" <$> col.2)) <$> df.

Inductive node :=
| Directory
| File (c : contents).

#[global] Instance node_eq_dec : EqDecision node.
Proof. solve_decision. Defined.

(** The file system: the entries in the order in which the operating
    system enumerates them. *)
Definition FileSystem := list (Path * node).

Fixpoint lookup_entry (p : Path) (fs : FileSystem) : option node :=
  match fs with
  | [] => None
  | (q, n) :: fs' => if decide (q = p) then Some n else lookup_entry p fs'
  end.

(** What is found at a path: the first entry for it, and at [Path(".")],
    the path of no parts, the current folder. *)
Definition lookup_path (p : Path) (fs : FileSystem) : option node :=
  match p with
  | [] => Some Directory
  | _ => lookup_entry p fs
  end.

Fixpoint replace_path (p : Path) (n : node) (fs : FileSystem) : FileSystem :=
  match fs with
  | [] => []
  | (q, m) :: fs' =>
      if decide (q = p) then (q, n) :: fs' else (q, m) :: replace_path p n fs'
  end.

(** [p.exists()]; the current directory always exists. *)
Definition path_exists (p : Path) (fs : FileSystem) : bool :=
  match p with
  | [] => true
  | _ => bool_decide (is_Some (lookup_path p fs))
  end.

Definition is_dir (p : Path) (fs : FileSystem) : bool :=
  match p with
  | [] => true
  | _ => bool_decide (lookup_path p fs = Some Directory)
  end.

(** [list(folder.glob("*.csv"))]: the entries directly below [folder]
    whose name ends in ".csv", in enumeration order. *)
Definition glob_csv (folder : Path) (fs : FileSystem) : list Path :=
  if is_dir folder fs then
    (filter (λ p, p ≠ [] ∧ parent p = folder ∧ PyStr.endswith (name p) ".csv" = true) fs.*1)
  else [].

End Pandas.

(** ** Program state, exceptions and output *)

Module Runtime.
Import PathLib Pandas.

Inductive exn :=
| FileNotFoundError (p : Path)
| ParserError (p : Path)
| IsADirectoryError (p : Path)
| OSError (p : Path)
| KeyError (c : string)
(** [ValueError(f"Column 'ID Subjektu' not found in {input_file}.
    Available columns: {list(df.columns)}")] *)
| ValueError_column_not_found (input_file : Path) (available : list string).

(** [isinstance(e, FileNotFoundError)] *)
Definition is_FileNotFoundError (e : exn) : bool :=
  match e with
  | FileNotFoundError _ => true
  | _ => false
  end.

(** The lines the program prints, one constructor for each [print] of
    [main.py], with the values its f-string interpolates. *)
Inductive msg :=
| Merge_found (n : nat)
| Merge_file_ids (file_name : string) (n : nat)
| Merge_no_id_column (file_name : string)
| Merge_error_reading (file_name : string) (e : exn)
| Merge_total (n : nat)
| Convert_added (merged_count : nat)
| Convert_success (n : nat) (input_file output_file : Path)
| Convert_file_not_found (input_file : Path)
| Convert_error (e : exn)
| Main_no_input_folder
| Main_please_create
| Main_no_csv_files
| Main_found (n : nat)
| Main_processing (file_name : string)
| Main_skip_converted (file_name : string)
| Main_skip_exists (file_name output_name : string)
| Main_complete
| Main_converted (n : nat)
| Main_skipped (n : nat)
| Main_merged.

(** A reference to a Python [set] object in the store. *)
Abbreviation ref := nat (only parsing).

Record State := mkState {
  fs : FileSystem;
  heap : list (gset string);
  stdout : list msg
}.

Inductive Result (A : Type) :=
| Ok (a : A)
| Raise (e : exn).
Arguments Ok {A} a.
Arguments Raise {A} e.

(** Computations: the state changes made before an exception is raised
    are kept, as in Python. *)
Definition M (A : Type) := State → Result A * State.

Definition ret {A} (a : A) : M A := λ st, (Ok a, st).

Definition bind {A B} (c : M A) (k : A → M B) : M B :=
  λ st, match c st with
        | (Ok a, st') => k a st'
        | (Raise e, st') => (Raise e, st')
        end.

Definition raise {A} (e : exn) : M A := λ st, (Raise e, st).

(** [try: c except Exception as e: h e] *)
Definition try_except {A} (c : M A) (h : exn → M A) : M A :=
  λ st, match c st with
        | (Ok a, st') => (Ok a, st')
        | (Raise e, st') => h e st'
        end.

#[global] Instance M_ret : MRet M := @ret.
#[global] Instance M_bind : MBind M := λ A B k c, bind c k.

(** [for x in l: s = body x s], with the local variables the body
    assigns threaded as [s]. *)
Fixpoint for_each {A S} (l : list A) (body : A → S → M S) (s : S) : M S :=
  match l with
  | [] => ret s
  | x :: l' => s' ← body x s; for_each l' body s'
  end.

(** [print(...)]: the line is added to the output.  The standard output
    is taken to encode every line; a [print] that raises
    [UnicodeEncodeError], as for the name of a file that is not valid text,
    is not part of the model. *)
Definition print (m : msg) : M unit :=
  λ st, (Ok tt, mkState (fs st) (heap st) (stdout st ++ [m])).

(** *** The store of sets *)

Definition deref (h : list (gset string)) (r : ref) : gset string :=
  default ∅ (h !! r).

(** [set(l)]: a new object. *)
Definition new_set (l : list string) : M ref :=
  λ st, (Ok (length (heap st)),
         mkState (fs st) (heap st ++ [list_to_set l]) (stdout st)).

Definition set_contents (r : ref) : M (gset string) :=
  λ st, (Ok (deref (heap st) r), st).

(** [len(r)] *)
Definition set_len (r : ref) : M nat :=
  λ st, (Ok (size (deref (heap st) r)), st).

(** [r.update(r')]: mutates the object [r] in place. *)
Definition set_update (r r' : ref) : M unit :=
  λ st, (Ok tt,
         mkState (fs st)
                 (<[r := deref (heap st) r ∪ deref (heap st) r']> (heap st))
                 (stdout st)).

(** The truth value of an optional set: [None] and the empty set are
    false. *)
Definition set_truthy (r : option ref) : M bool :=
  λ st, (Ok match r with
            | None => false
            | Some r => negb (bool_decide (deref (heap st) r = ∅))
            end, st).

(** *** File operations *)

Section files.
Context {pandas : Parser}.

(** [p.exists()] *)
Definition exists_ (p : Path) : M bool := λ st, (Ok (path_exists p (fs st)), st).

(** [list(folder.glob("*.csv"))] *)
Definition glob (folder : Path) : M (list Path) :=
  λ st, (Ok (glob_csv folder (fs st)), st).

(** [pd.read_csv(p)] *)
Definition read_csv (p : Path) : M DataFrame :=
  λ st, match lookup_path p (fs st) with
        | None => (Raise (FileNotFoundError p), st)
        | Some Directory => (Raise (IsADirectoryError p), st)
        | Some (File Malformed) => (Raise (ParserError p), st)
        | Some (File (CsvText t)) => (Ok (parse_table t), st)
        end.

(** [df.to_csv(p, index=False)]: replaces the text of an existing file,
    creates the file when its folder exists, and raises otherwise: at a
    folder, the current one among them, [IsADirectoryError], and for a
    folder that does not exist [OSError]. *)
Definition to_csv (df : DataFrame) (p : Path) : M unit :=
  λ st, match lookup_path p (fs st) with
        | Some Directory => (Raise (IsADirectoryError p), st)
        | Some (File _) =>
            (Ok tt, mkState (replace_path p (File (CsvText (render_table df))) (fs st))
                            (heap st) (stdout st))
        | None =>
            if is_dir (parent p) (fs st) then
              (Ok tt, mkState (fs st ++ [(p, File (CsvText (render_table df)))])
                              (heap st) (stdout st))
            else (Raise (OSError p), st)
        end.

(** [df[c]] *)
Definition getitem_ (df : DataFrame) (c : string) : M Series :=
  match getitem df c with
  | Some s => ret s
  | None => raise (KeyError c)
  end.

End files.

End Runtime.

(** ** main.py *)

Module Main.
Import PyStr PathLib Pandas Runtime.

Section program.
Context {pandas : Parser}.

(** The truth value of [id_column], which is [None] or a [str]. *)
Definition str_truthy (s : option string) : bool :=
  match s with
  | None => false
  | Some s => negb (String.eqb s "")
  end.

(** The choice of [id_column] in [get_merge_ids]. *)
Definition merge_id_column (df : DataFrame) : option string :=
  if bool_decide ("ID" ∈ columns df) then Some "ID"
  else if bool_decide ("ID Subjektu" ∈ columns df) then Some "ID Subjektu"
  else None.

(** The body of the loop of [get_merge_ids] over [csv_files]. *)
Definition get_merge_ids_body (merge_ids : ref) (csv_file : Path) (_ : unit)
  : M unit :=
  try_except
    (df ← read_csv csv_file;
     let id_column := merge_id_column df in
     if str_truthy id_column then
       col ← getitem_ df (default "" id_column);
       file_ids ← new_set (dropna_astype_str col);
       set_update merge_ids file_ids;;
       n ← set_len file_ids;
       print (Merge_file_ids (name csv_file) n)
     else
       print (Merge_no_id_column (name csv_file)))
    (λ e, print (Merge_error_reading (name csv_file) e)).

Definition get_merge_ids : M ref :=
  let merge_folder : Path := ["merge"] in
  merge_ids ← new_set [];
  e ← exists_ merge_folder;
  if negb e then mret merge_ids else
  csv_files ← glob merge_folder;
  if bool_decide (csv_files = []) then mret merge_ids else
  print (Merge_found (length csv_files));;
  for_each csv_files (get_merge_ids_body merge_ids) tt;;
  t ← set_truthy (Some merge_ids);
  (if t : bool then n ← set_len merge_ids; print (Merge_total n) else mret tt);;
  mret merge_ids.

(** [input_path.parent / f"{input_path.stem}_converted{input_path.suffix}"] *)
Definition converted_path (input_path : Path) : Path :=
  joinpath (parent input_path)
           (stem input_path +:+ "_converted" +:+ suffix input_path).

(** The [try] block of [convert_csv_with_merge]. *)
Definition convert_try (input_file : Path) (output_file : option Path)
    (merge_ids : option ref) : M (option Path) :=
  df ← read_csv input_file;
  (if negb (bool_decide ("ID Subjektu" ∈ columns df))
   then raise (ValueError_column_not_found input_file (columns df))
   else mret tt);;
  col ← getitem_ df "ID Subjektu";
  input_ids ← new_set (dropna_astype_str col);
  t ← set_truthy merge_ids;
  (if t : bool then
     original_count ← set_len input_ids;
     set_update input_ids (default 0 merge_ids);;
     n ← set_len input_ids;
     let merged_count := n - original_count in
     if 0 <? merged_count then print (Convert_added merged_count) else mret tt
   else mret tt);;
  s ← set_contents input_ids;
  let all_ids := sorted (elements s) in
  let output_df := DataFrame_of_column "ID" all_ids in
  let output_file := match output_file with
                     | None => converted_path input_file
                     | Some o => o
                     end in
  to_csv output_df output_file;;
  print (Convert_success (len output_df) input_file output_file);;
  mret (Some output_file).

(** The result is [Some] of the output path, or [None] for Python's
    [None]. *)
Definition convert_csv_with_merge (input_file : Path)
    (output_file : option Path) (merge_ids : option ref) : M (option Path) :=
  try_except (convert_try input_file output_file merge_ids)
    (λ e, if is_FileNotFoundError e
          then print (Convert_file_not_found input_file);; mret None
          else print (Convert_error e);; mret None).

Definition is_already_converted (file_path : Path) : M bool :=
  if endswith (stem file_path) "_converted" then mret true else
  try_except
    (df ← read_csv file_path;
     let columns := columns df in
     if (length columns =? 1) && bool_decide (columns !! 0 = Some "ID")
     then mret true
     else if bool_decide ("ID Subjektu" ∈ columns) then mret false
     else mret true)
    (λ _, mret false).

(** The body of the loop of [main]; the local variables it assigns are
    [(converted_count, skipped_count)]. *)
Definition main_body (merge_ids : ref) (csv_file : Path) (counts : nat * nat)
  : M (nat * nat) :=
  let '(converted_count, skipped_count) := counts in
  print (Main_processing (name csv_file));;
  a ← is_already_converted csv_file;
  if a : bool then
    print (Main_skip_converted (name csv_file));;
    mret (converted_count, skipped_count + 1)
  else
    let output_file := converted_path csv_file in
    e ← exists_ output_file;
    if e : bool then
      print (Main_skip_exists (name csv_file) (name output_file));;
      mret (converted_count, skipped_count + 1)
    else
      result ← convert_csv_with_merge csv_file (Some output_file) (Some merge_ids);
      (* [if result:] a returned path is a non-empty [str] *)
      if bool_decide (is_Some result)
      then mret (converted_count + 1, skipped_count)
      else mret (converted_count, skipped_count).

Definition main : M unit :=
  let input_folder : Path := ["input"] in
  e ← exists_ input_folder;
  if negb e then
    print Main_no_input_folder;;
    print Main_please_create
  else
    merge_ids ← get_merge_ids;
    csv_files ← glob input_folder;
    if bool_decide (csv_files = []) then print Main_no_csv_files else
    print (Main_found (length csv_files));;
    counts ← for_each csv_files (main_body merge_ids) (0, 0);
    print Main_complete;;
    print (Main_converted counts.1);;
    print (Main_skipped counts.2);;
    t ← set_truthy (Some merge_ids);
    if t : bool then print Main_merged else mret tt.

(** [if __name__ == "__main__": main()]: the script starts with an empty
    store and output; its exit status is 0 unless an exception escapes
    [main]. *)
Definition initial (files : FileSystem) : State := mkState files [] [].

Definition script (files : FileSystem) : nat * State :=
  match main (initial files) with
  | (Ok _, st) => (0, st)
  | (Raise _, st) => (1, st)
  end.

End program.

End Main.

(** ** Notions used to state the properties *)

Module Spec.
Import PyStr PathLib Pandas Runtime Main.

Section notions.
Context {pandas : Parser}.

(** The contents of the pool handed to the converter. *)
Definition pool (st : State) (merge_ids : option ref) : gset string :=
  match merge_ids with
  | None => ∅
  | Some r => deref (heap st) r
  end.

(** The path the converter writes to. *)
Definition output_path (input_file : Path) (output_file : option Path) : Path :=
  match output_file with
  | None => converted_path input_file
  | Some o => o
  end.

(** [to_csv] can write to [p]: [p] is a file, or is absent from an
    existing folder. *)
Definition writable (p : Path) (files : FileSystem) : bool :=
  match lookup_path p files with
  | Some Directory => false
  | Some (File _) => true
  | None => is_dir (parent p) files
  end.

(** The file system after node [n] is written at [p]. *)
Definition write_file (p : Path) (n : node) (files : FileSystem) : FileSystem :=
  match lookup_path p files with
  | Some _ => replace_path p n files
  | None => files ++ [(p, n)]
  end.

(** The text of a converted file with the given rows. *)
Definition id_file (rows : list string) : node := File (CsvText [("ID", rows)]).

(** The identifiers of a column: its values that are not missing. *)
Definition column_ids (col : Series) : gset string :=
  list_to_set (dropna_astype_str col).

(** The line the converter prints when the pool adds identifiers. *)
Definition added_messages (input_ids all_ids : gset string) : list msg :=
  if 0 <? size all_ids - size input_ids
  then [Convert_added (size all_ids - size input_ids)]
  else [].

(** The lines that do not report a conversion: any line but the success
    line of the converter and a summary with a count other than 0. *)
Definition quiet (m : msg) : Prop :=
  match m with
  | Convert_success _ _ _ => False
  | Main_converted n => n = 0
  | _ => True
  end.

(** What stops [pd.read_csv]: the path is absent, a folder, or malformed
    text. *)
Definition read_error (p : Path) (files : FileSystem) : option exn :=
  match lookup_path p files with
  | None => Some (FileNotFoundError p)
  | Some Directory => Some (IsADirectoryError p)
  | Some (File Malformed) => Some (ParserError p)
  | Some (File (CsvText _)) => None
  end.

(** The line the converter prints in its [except] clauses. *)
Definition error_message (input_file : Path) (e : exn) : msg :=
  if is_FileNotFoundError e then Convert_file_not_found input_file
  else Convert_error e.

(** The identifiers one merge file contributes. *)
Definition merge_file_ids (files : FileSystem) (p : Path) : gset string :=
  match lookup_path p files with
  | Some (File (CsvText t)) =>
      match merge_id_column (parse_table t) with
      | Some c => column_ids (default [] (getitem (parse_table t) c))
      | None => ∅
      end
  | _ => ∅
  end.

(** The line printed for one merge file. *)
Definition merge_file_message (files : FileSystem) (p : Path) : msg :=
  match lookup_path p files with
  | Some (File (CsvText t)) =>
      match merge_id_column (parse_table t) with
      | Some c => Merge_file_ids (name p) (size (merge_file_ids files p))
      | None => Merge_no_id_column (name p)
      end
  | _ => Merge_error_reading (name p) (default (ParserError p) (read_error p files))
  end.

(** The pool of a file system: the union over the files of its merge
    folder. *)
Definition merge_pool (files : FileSystem) : gset string :=
  ⋃ (merge_file_ids files <$> glob_csv ["merge"] files).

Definition merge_messages (files : FileSystem) : list msg :=
  let csv_files := glob_csv ["merge"] files in
  if bool_decide (csv_files = []) then []
  else [Merge_found (length csv_files)] ++
       (merge_file_message files <$> csv_files) ++
       (if bool_decide (merge_pool files = ∅) then []
        else [Merge_total (size (merge_pool files))]).

(** The state the converter leaves when it succeeds. *)
Definition converted_state (st : State) (input_file out : Path)
    (input_ids all_ids : gset string) : State :=
  mkState (write_file out (id_file (sorted (elements all_ids))) (fs st))
          (heap st ++ [all_ids])
          (stdout st ++ added_messages input_ids all_ids ++
             [Convert_success (size all_ids) input_file out]).

(** The answer of [is_already_converted] for a header. *)
Definition header_converted (cols : list string) : bool :=
  if (length cols =? 1) && bool_decide (cols !! 0 = Some "ID") then true
  else if bool_decide ("ID Subjektu" ∈ cols) then false
  else true.

(** The answer of [is_already_converted] on a file system. *)
Definition already_converted (files : FileSystem) (p : Path) : bool :=
  if endswith (stem p) "_converted" then true
  else match lookup_path p files with
       | Some (File (CsvText t)) => header_converted (columns (parse_table t))
       | _ => false
       end.

Definition processing (st : State) (p : Path) : State :=
  mkState (fs st) (heap st) (stdout st ++ [Main_processing (name p)]).

(** A file the driver leaves alone: it is classified as converted, or its
    output file exists, or the converter cannot read it or cannot write
    its output file. *)
Definition settled (files : FileSystem) (p : Path) : Prop :=
  already_converted files p = true ∨
  path_exists (converted_path p) files = true ∨
  is_Some (read_error p files) ∨
  writable (converted_path p) files = false.

(** The entries of a list are files, not folders. *)
Definition only_files (new : FileSystem) : Prop :=
  Forall (λ e : Path * node, ∃ c, e.2 = File c) new.

(** The rows the converter writes for the input file [src] and the pool
    [B]: the identifiers of the file and of the pool, sorted. *)
Definition converted_rows (files : FileSystem) (src : Path) (B : gset string)
  : option (list string) :=
  match lookup_path src files with
  | Some (File (CsvText t)) =>
      match getitem (parse_table t) "ID Subjektu" with
      | Some col => Some (sorted (elements (column_ids col ∪ B)))
      | None => None
      end
  | _ => None
  end.

(** An entry the loop over [l] has added with the pool [B]: the output
    file of a file of [l], at a path that was free in [files]. *)
Definition output_of (l : list Path) (files : FileSystem) (B : gset string)
    (e : Path * node) : Prop :=
  ∃ src rows, src ∈ l ∧ converted_rows files src B = Some rows ∧
              e = (converted_path src, id_file rows) ∧
              lookup_path (converted_path src) files = None.

(** The lines [main] prints after its loop. *)
Definition summary (counts : nat * nat) (merged : gset string) : list msg :=
  [Main_complete; Main_converted counts.1; Main_skipped counts.2] ++
  (if bool_decide (merged = ∅) then [] else [Main_merged]).

End notions.

End Spec.

(** ** Notions used to state further properties *)

Module Reports.
Import PyStr PathLib Pandas Runtime Main Spec.

Section reports.
Context {pandas : Parser}.

(** The exception [to_csv] raises when it cannot write to [p]. *)
Definition write_error (p : Path) (files : FileSystem) : exn :=
  match lookup_path p files with
  | Some Directory => IsADirectoryError p
  | _ => OSError p
  end.

(** The exception that ends the [try] block of the converter, in the
    order in which the block can raise: the read, the check of the column,
    the write. *)
Definition convert_error (input_file out : Path) (files : FileSystem)
  : option exn :=
  match lookup_path input_file files with
  | Some (File (CsvText t)) =>
      if bool_decide ("ID Subjektu" ∈ columns (parse_table t)) then
        if writable out files then None else Some (write_error out files)
      else Some (ValueError_column_not_found input_file (columns (parse_table t)))
  | _ => read_error input_file files
  end.

(** The lines printed by the [except] clauses of the converter. *)
Definition is_error_line (m : msg) : bool :=
  match m with
  | Convert_file_not_found _ | Convert_error _ => true
  | _ => false
  end.

(** The names in the lines "Processing: ..." of an output. *)
Definition processed (out : list msg) : list string :=
  omap (λ m, match m with Main_processing n => Some n | _ => None end) out.

(** The number of error lines of the converter in an output. *)
Definition errors (out : list msg) : nat :=
  length (filter (λ m, is_error_line m = true) out).

(** The error line of the converter for a file without the column
    "ID Subjektu". *)
Definition missing_column_line (m : msg) : Prop :=
  match m with
  | Convert_error (ValueError_column_not_found _ _) => True
  | _ => False
  end.





End reports.

End Reports.

(** ** run.py *)

Module Launcher.
Import PathLib Pandas Runtime Main.

(** The lines of the launcher; a line of the child process, which prints
    to the same terminal, is kept as [Run_child]. *)
Inductive run_msg :=
| Run_venv_not_found
| Run_please_setup
| Run_setup_command
| Run_running
| Run_rule
| Run_rule_below
| Run_success
| Run_finished_with_errors
| Run_python_not_found
| Run_please_setup_again
| Run_interrupted
| Run_error
| Run_child (m : msg).

(** What [subprocess.run] does: the child process ends with a return
    code, having printed its lines and changed the files, or the call
    raises. *)
Inductive child :=
| Completed (returncode : nat) (files : FileSystem) (out : list msg)
| Child_FileNotFoundError
| Child_KeyboardInterrupt (files : FileSystem) (out : list msg)
| Child_Exception (files : FileSystem) (out : list msg).

Section run_py.

(** [os.name == 'nt'] *)
Variable nt : bool.

(** [subprocess.run([str(python_path), "main.py"], cwd=project_dir)], on
    the files below the folder of the project.  What the child process
    does is not fixed here: it depends on the interpreter found at
    [python_path], which need not exist. *)
Variable subprocess_run : Path → FileSystem → child.

(** [main] of [run.py]: the exit status of the launcher, the files and
    the lines on the terminal; [sys.exit(1)] gives the status 1, a return
    from [main] the status 0. *)
Definition run_main (files : FileSystem) : nat * FileSystem * list run_msg :=
  let venv_path : Path := ["venv"] in
  if negb (path_exists venv_path files) then
    (1, files, [Run_venv_not_found; Run_please_setup; Run_setup_command])
  else
    let python_path : Path :=
      if nt then venv_path ++ ["Scripts"; "python"]
      else venv_path ++ ["bin"; "python"] in
    match subprocess_run python_path files with
    | Completed returncode files' out =>
        (0, files',
         [Run_running; Run_rule] ++ (Run_child <$> out) ++ [Run_rule_below] ++
         [if returncode =? 0 then Run_success else Run_finished_with_errors])
    | Child_FileNotFoundError =>
        (1, files,
         [Run_running; Run_rule; Run_python_not_found; Run_please_setup_again;
          Run_setup_command])
    | Child_KeyboardInterrupt files' out =>
        (1, files',
         [Run_running; Run_rule] ++ (Run_child <$> out) ++ [Run_interrupted])
    | Child_Exception files' out =>
        (1, files',
         [Run_running; Run_rule] ++ (Run_child <$> out) ++ [Run_error])
    end.

End run_py.

End Launcher.

(** ** Sample file systems *)

Module Samples.
Import PathLib Pandas Runtime Main Launcher.

(** A parser for the sample files.  It reads a table of text: the header
    is kept as it is and every field that is not a marker of a missing value
    is kept as the text it is.  This is how pandas reads a column that holds
    a field that is neither a number nor a truth value, and a column of
    integers written without sign, leading zero or missing field, as the
    columns of the samples below are. *)
Definition parse_field (f : string) : cell :=
  if bool_decide (f ∈ STR_NA_VALUES) then None else Some f.

Definition text_table (t : list (string * list string)) : DataFrame :=
  (λ col : string * list string, (col.1, parse_field <$> col.2)) <$> t.

Definition text_parser : Parser.
Proof.
  refine {| parse_table := text_table |}.
  intros t c col x Hcol Hx Hna. unfold text_table in Hcol.
  apply list_elem_of_fmap in Hcol as ([c' fields] & [= -> ->] & _).
  apply list_elem_of_fmap in Hx as (f & Hf & _). unfold parse_field in Hf.
  destruct (bool_decide (f ∈ STR_NA_VALUES)) eqn:Hdec; [done|].
  apply bool_decide_eq_false in Hdec. by simplify_eq.
Defined.

Definition test_input : list (string * list string) :=
  [("Name", ["Test Org 1"; "Test Org 2"; "Duplicate ID"; "Blank"]);
   ("ID Subjektu", ["TEST-001"; "TEST-002"; "MERGE-001"; ""]);
   ("Date", ["2025-05-30"; "2025-05-30"; "2025-05-30"; "2025-05-30"])].

Definition test_files : FileSystem :=
  [ (["input"], Directory); (["merge"], Directory);
    (["input"; "test_input.csv"], File (CsvText test_input));
    (["merge"; "test_merge.csv"], File (CsvText
       [("ID", ["MERGE-001"; "MERGE-002"; "MERGE-003"])])) ].

(** The same folders with the rows of the input file, and the entries of
    the file system, in another order. *)
Definition test_input_reordered : list (string * list string) :=
  [("Name", ["Blank"; "Duplicate ID"; "Test Org 2"; "Test Org 1"]);
   ("ID Subjektu", [""; "MERGE-001"; "TEST-002"; "TEST-001"]);
   ("Date", ["2025-05-30"; "2025-05-30"; "2025-05-30"; "2025-05-30"])].

Definition test_files_reordered : FileSystem :=
  [ (["merge"; "test_merge.csv"], File (CsvText
       [("ID", ["MERGE-001"; "MERGE-002"; "MERGE-003"])]));
    (["input"; "test_input.csv"], File (CsvText test_input_reordered));
    (["merge"], Directory); (["input"], Directory) ].

Definition test_state_reordered : State :=
  mkState test_files_reordered
          [∅; list_to_set ["MERGE-003"; "MERGE-002"; "MERGE-001"]] [].

Definition test_state : State :=
  mkState test_files [list_to_set ["MERGE-001"; "MERGE-002"; "MERGE-003"]] [].

Definition no_id_files : FileSystem :=
  [ (["input"], Directory);
    (["input"; "other.csv"], File (CsvText [("Name", ["a"]); ("Date", ["b"])]));
    (["input"; "other_converted.csv"], File (CsvText [("ID", ["kept"])])) ].

Definition blank_files : FileSystem :=
  [ (["input"], Directory);
    (["input"; "blank.csv"], File (CsvText
       [("ID Subjektu", [""; "NaN"]); ("Name", ["a"; "b"])])) ].

Definition numeric_files : FileSystem :=
  [ (["input"], Directory);
    (["input"; "n.csv"], File (CsvText [("ID Subjektu", ["2"; "10"; "2"])])) ].

Definition unreadable_files : FileSystem :=
  [ (["input"], Directory); (["input"; "bad.csv"], File Malformed) ].

(** A merge folder with a file that has both columns of identifiers, one
    that has the column "ID Subjektu" only, one that has neither and one
    that cannot be parsed. *)
Definition both_columns : list (string * list string) :=
  [("ID Subjektu", ["S-1"; "S-2"]); ("ID", ["M-1"; ""; "M-1"])].

Definition merge_files : FileSystem :=
  [ (["merge"], Directory);
    (["merge"; "both.csv"], File (CsvText both_columns));
    (["merge"; "subjects.csv"], File (CsvText [("ID Subjektu", ["M-2"; "M-1"])]));
    (["merge"; "names.csv"], File (CsvText [("Name", ["a"])]));
    (["merge"; "bad.csv"], File Malformed) ].

(** A child process that ends with return code 1 and leaves the files as
    they are. *)
Definition failing_child (python_path : Path) (files : FileSystem) : child :=
  Completed 1 files [].

End Samples.

Import PyStr PathLib Pandas Runtime Main Spec Reports Launcher Samples.

(** * Properties *)

(** ** Running computations *)

(** Runs the first step [f] of a computation applied to a state. *)
Tactic Notation "run_step" reference(f) :=
  unfold mbind at 1, M_bind at 1, bind at 1, f at 1; cbv beta iota.

Section properties.
Context {pandas : Parser}.

Lemma run_bind {A B} (c : M A) (k : A → M B) st :
  (c ≫= k) st = match c st with
                | (Ok a, st') => k a st'
                | (Raise e, st') => (Raise e, st')
                end.
Proof. reflexivity. Qed.

Lemma run_bind_ok {A B} (c : M A) (k : A → M B) st a st' :
  c st = (Ok a, st') → (c ≫= k) st = k a st'.
Proof. intros H. rewrite run_bind, H. reflexivity. Qed.

Lemma run_bind_raise {A B} (c : M A) (k : A → M B) st e st' :
  c st = (Raise e, st') → (c ≫= k) st = (Raise e, st').
Proof. intros H. rewrite run_bind, H. reflexivity. Qed.

Lemma run_try_ok {A} (c : M A) h st a st' :
  c st = (Ok a, st') → try_except c h st = (Ok a, st').
Proof. intros H. unfold try_except. rewrite H. reflexivity. Qed.

Lemma run_try_raise {A} (c : M A) h st e st' :
  c st = (Raise e, st') → try_except c h st = h e st'.
Proof. intros H. unfold try_except. rewrite H. reflexivity. Qed.

(** ** The data frame primitives *)

Lemma getitem_Some_columns df c :
  c ∈ columns df ↔ is_Some (getitem df c).
Proof.
  induction df as [|[c' s] df IH]; simpl.
  - split; [intros H; inversion H | intros [? ?]; discriminate].
  - unfold columns in *. simpl. rewrite elem_of_cons. destruct (decide (c' = c)) as [->|Hne].
    + split; eauto.
    + rewrite <- IH. split; [intros [?|?]; congruence || done | auto].
Qed.

Lemma getitem_None_columns df c :
  c ∉ columns df ↔ getitem df c = None.
Proof. rewrite getitem_Some_columns, eq_None_not_Some. reflexivity. Qed.

Lemma render_DataFrame_of_column c l :
  render_table (DataFrame_of_column c l) = [(c, l)].
Proof.
  unfold render_table, DataFrame_of_column. simpl. do 2 f_equal.
  induction l as [|x l IH]; csimpl; [done | by rewrite IH].
Qed.

Lemma elem_of_dropna_astype_str (s : Series) x :
  x ∈ dropna_astype_str s ↔ Some x ∈ s.
Proof.
  unfold dropna_astype_str. rewrite list_elem_of_omap. split.
  - intros (y & Hy & Hx). simpl in Hx. by subst.
  - intros H. exists (Some x). done.
Qed.

Lemma getitem_Some_elem df c col : getitem df c = Some col → (c, col) ∈ df.
Proof.
  induction df as [|[c' s] df IH]; simpl; [done|].
  destruct (decide (c' = c)) as [->|Hne].
  - intros [= ->]. apply list_elem_of_here.
  - intros H. apply list_elem_of_further. auto.
Qed.

(** The text of a value read from a file is not a marker of a missing
    value. *)
Lemma getitem_parse_table_not_na t c col x :
  getitem (parse_table t) c = Some col → Some x ∈ col → x ∉ STR_NA_VALUES.
Proof.
  intros Hcol%getitem_Some_elem. by apply (parse_table_text t c col).
Qed.

(** A column read from a file holds no empty string: [pd.read_csv] reads
    an empty field as a missing value. *)
Lemma getitem_parse_table_nonempty t c col :
  getitem (parse_table t) c = Some col → Some "" ∉ col.
Proof.
  intros Hcol Hx. apply (getitem_parse_table_not_na _ _ _ _ Hcol Hx).
  apply list_elem_of_here.
Qed.

(** ** The store of sets *)

Lemma deref_app_l h h' r : r < length h → deref (h ++ h') r = deref h r.
Proof. intros H. unfold deref. by rewrite lookup_app_l. Qed.

Lemma deref_ge h r : length h ≤ r → deref h r = ∅.
Proof. intros H. unfold deref. by rewrite lookup_ge_None_2. Qed.

Lemma deref_snoc h (A : gset string) : deref (h ++ [A]) (length h) = A.
Proof. unfold deref. by rewrite list_lookup_middle. Qed.

(** A pool reference cannot be told apart from one to the empty set when
    it does not point into the store. *)
Lemma deref_snoc_union h (A : gset string) r :
  A ∪ deref (h ++ [A]) r = A ∪ deref h r.
Proof.
  destruct (decide (r < length h)) as [Hlt|Hge].
  - by rewrite deref_app_l.
  - rewrite (deref_ge h r) by lia.
    destruct (decide (r = length h)) as [->|Hne].
    + rewrite deref_snoc. by rewrite union_idemp_L, union_empty_r_L.
    + rewrite deref_ge; [done|]. rewrite length_app. simpl. lia.
Qed.

Lemma deref_middle h h' (A : gset string) : deref (h ++ [A] ++ h') (length h) = A.
Proof. unfold deref. simpl. by rewrite list_lookup_middle. Qed.

Lemma insert_snoc (h : list (gset string)) A B :
  <[length h := B]> (h ++ [A]) = h ++ [B].
Proof.
  rewrite insert_app_r_alt by lia. by rewrite Nat.sub_diag.
Qed.

(** ** The file system *)

Lemma lookup_entry_app p (files files' : FileSystem) :
  lookup_entry p (files ++ files') =
  match lookup_entry p files with
  | Some n => Some n
  | None => lookup_entry p files'
  end.
Proof.
  induction files as [|[q n] files IH]; simpl; [done|].
  by destruct (decide (q = p)).
Qed.

Lemma lookup_path_app p (files files' : FileSystem) :
  lookup_path p (files ++ files') =
  match lookup_path p files with
  | Some n => Some n
  | None => lookup_path p files'
  end.
Proof. destruct p; [done|]. apply lookup_entry_app. Qed.

Lemma lookup_entry_replace_path p q n (files : FileSystem) :
  lookup_entry q (replace_path p n files) =
  if decide (p = q) then (λ _, n) <$> lookup_entry p files else lookup_entry q files.
Proof.
  induction files as [|[q' m] files IH]; simpl.
  - by destruct (decide (p = q)).
  - destruct (decide (q' = p)) as [->|Hne]; simpl.
    + destruct (decide (p = q)) as [->|Hne]; simpl; [|done].
      by destruct (decide (q = q)).
    + rewrite IH. destruct (decide (p = q)) as [->|Hne']; simpl; [|done].
      by destruct (decide (q' = q)).
Qed.

Lemma lookup_replace_path p q n (files : FileSystem) :
  p ≠ [] →
  lookup_path q (replace_path p n files) =
  if decide (p = q) then (λ _, n) <$> lookup_path p files else lookup_path q files.
Proof.
  intros Hp. destruct q as [|d q].
  - by rewrite decide_False.
  - destruct p; [done|]. apply lookup_entry_replace_path.
Qed.

Lemma lookup_write_file p q n (files : FileSystem) :
  p ≠ [] →
  lookup_path q (write_file p n files) =
  if decide (p = q) then Some n else lookup_path q files.
Proof.
  intros Hne. unfold write_file. destruct (lookup_path p files) as [m|] eqn:Hp.
  - rewrite lookup_replace_path, Hp by done. by destruct (decide (p = q)).
  - rewrite lookup_path_app. destruct p as [|d p]; [done|].
    destruct (decide (d :: p = q)) as [<-|Hne'].
    + rewrite Hp. cbn [lookup_path lookup_entry]. by rewrite decide_True.
    + destruct (lookup_path q files) eqn:Hq; [done|].
      destruct q as [|d' q]; [done|]. cbn [lookup_path lookup_entry].
      by rewrite decide_False.
Qed.

Lemma lookup_path_singleton p n : p ≠ [] → lookup_path p [(p, n)] = Some n.
Proof.
  intros Hp. destruct p as [|d p]; [done|]. cbn [lookup_path lookup_entry].
  by rewrite decide_True.
Qed.

(** [to_csv] does not write to the current folder. *)
Lemma writable_not_nil p files : writable p files = true → p ≠ [].
Proof. by intros H ->. Qed.

Lemma to_csv_writable df p st :
  writable p (fs st) = true →
  to_csv df p st =
    (Ok tt, mkState (write_file p (File (CsvText (render_table df))) (fs st))
                    (heap st) (stdout st)).
Proof.
  unfold writable, to_csv, write_file.
  destruct (lookup_path p (fs st)) as [[|c]|]; [done..|].
  by intros ->.
Qed.

Lemma to_csv_not_writable df p st :
  writable p (fs st) = false →
  ∃ e, to_csv df p st = (Raise e, st) ∧ is_FileNotFoundError e = false.
Proof.
  unfold writable, to_csv.
  destruct (lookup_path p (fs st)) as [[|c]|]; [eauto | done |].
  intros ->. eauto.
Qed.

(** ** The converter *)

Lemma read_csv_table p t st :
  lookup_path p (fs st) = Some (File (CsvText t)) →
  read_csv p st = (Ok (parse_table t), st).
Proof. intros H. unfold read_csv. by rewrite H. Qed.

Lemma run_ret_bind {A B} (a : A) (k : A → M B) st : (ret a ≫= k) st = k a st.
Proof. reflexivity. Qed.

Lemma len_DataFrame_of_column c l : len (DataFrame_of_column c l) = length l.
Proof. unfold len, DataFrame_of_column. by rewrite length_fmap. Qed.

Lemma length_sorted l : length (sorted l) = length l.
Proof. unfold sorted. by rewrite merge_sort_Permutation. Qed.

(** The merge step of the converter: [input_ids] is the newest object of
    the store and receives the contents of the pool. *)
Lemma convert_merge_step {B} (k : unit → M B) files h out (A : gset string) merge_ids :
  let st1 := mkState files (h ++ [A]) out in
  let all_ids := A ∪ pool (mkState files h out) merge_ids in
  (set_truthy merge_ids
     ≫= λ t0 : bool,
       (if t0
        then
          set_len (length h)
            ≫= λ original_count : nat,
              set_update (length h) (default 0 merge_ids)
                ≫= λ _ : (),
                  set_len (length h)
                    ≫= λ n : nat,
                      if 0 <? n - original_count
                      then print (Convert_added (n - original_count))
                      else ret ()
        else ret ())
         ≫= k) st1 =
  k tt (mkState files (h ++ [all_ids]) (out ++ added_messages A all_ids)).
Proof.
  intros st1 all_ids.
  assert (Hall : all_ids = A ∪ pool st1 merge_ids).
  { unfold all_ids, pool, st1. destruct merge_ids as [r|]; simpl; [|done].
    by rewrite deref_snoc_union. }
  rewrite run_bind. unfold set_truthy at 1. cbv beta iota.
  destruct merge_ids as [r|]; simpl pool in *.
  - case_bool_decide as Hempty; simpl negb; cbv iota.
    + rewrite run_ret_bind. simpl in Hempty. rewrite Hall, Hempty, union_empty_r_L.
      unfold added_messages. rewrite Nat.sub_diag. simpl. by rewrite app_nil_r.
    + rewrite run_bind. unfold mbind, M_bind, bind, set_len, set_update, st1.
      cbn [heap fs stdout from_option id].
      rewrite deref_snoc, insert_snoc, deref_snoc, <- Hall.
      unfold added_messages.
      destruct (0 <? size all_ids - size A); simpl.
      * done.
      * by rewrite app_nil_r.
  - rewrite run_ret_bind. rewrite Hall, union_empty_r_L.
    unfold added_messages. rewrite Nat.sub_diag. simpl. by rewrite app_nil_r.
Qed.

(** The state after the converter has built and merged [input_ids]. *)
Lemma convert_try_ok st input_file output_file merge_ids t col :
  lookup_path input_file (fs st) = Some (File (CsvText t)) →
  getitem (parse_table t) "ID Subjektu" = Some col →
  let all_ids := column_ids col ∪ pool st merge_ids in
  let out := output_path input_file output_file in
  writable out (fs st) = true →
  convert_try input_file output_file merge_ids st =
    (Ok (Some out),
     mkState (write_file out (id_file (sorted (elements all_ids))) (fs st))
             (heap st ++ [all_ids])
             (stdout st ++ added_messages (column_ids col) all_ids ++
                [Convert_success (size all_ids) input_file out])).
Proof.
  intros Hin Hcol all_ids out Hw.
  unfold convert_try.
  rewrite (run_bind_ok _ _ _ _ _ (read_csv_table _ _ _ Hin)).
  assert (Hmem : "ID Subjektu" ∈ columns (parse_table t)).
  { apply getitem_Some_columns. eauto. }
  rewrite bool_decide_true by done. simpl negb. cbv iota.
  rewrite run_bind. unfold mret, M_ret, ret at 1.
  unfold getitem_. rewrite Hcol.
  rewrite run_ret_bind, run_bind. unfold new_set at 1. cbv beta iota.
  destruct st as [files h o]. simpl fs in *. simpl heap. simpl stdout.
  rewrite convert_merge_step.
  fold (column_ids col). fold all_ids.
  rewrite run_bind. unfold set_contents at 1. cbv beta iota. simpl heap.
  rewrite deref_snoc. fold (output_path input_file output_file). fold out.
  erewrite run_bind_ok; [|by apply to_csv_writable].
  rewrite render_DataFrame_of_column, len_DataFrame_of_column, length_sorted.
  unfold print, mbind, M_bind, bind, mret, M_ret, ret. cbn [fs heap stdout].
  by rewrite <- app_assoc.
Qed.

Lemma convert_try_not_writable st input_file output_file merge_ids t col :
  lookup_path input_file (fs st) = Some (File (CsvText t)) →
  getitem (parse_table t) "ID Subjektu" = Some col →
  let all_ids := column_ids col ∪ pool st merge_ids in
  writable (output_path input_file output_file) (fs st) = false →
  ∃ e, is_FileNotFoundError e = false ∧
    convert_try input_file output_file merge_ids st =
      (Raise e,
       mkState (fs st) (heap st ++ [all_ids])
               (stdout st ++ added_messages (column_ids col) all_ids)).
Proof.
  intros Hin Hcol all_ids Hw.
  unfold convert_try.
  rewrite (run_bind_ok _ _ _ _ _ (read_csv_table _ _ _ Hin)).
  assert (Hmem : "ID Subjektu" ∈ columns (parse_table t)).
  { apply getitem_Some_columns. eauto. }
  rewrite bool_decide_true by done. simpl negb. cbv iota.
  rewrite run_bind. unfold mret, M_ret, ret at 1.
  unfold getitem_. rewrite Hcol.
  rewrite run_ret_bind, run_bind. unfold new_set at 1. cbv beta iota.
  destruct st as [files h o]. simpl fs in *. simpl heap. simpl stdout.
  rewrite convert_merge_step.
  fold (column_ids col). fold all_ids.
  rewrite run_bind. unfold set_contents at 1. cbv beta iota. simpl heap.
  rewrite deref_snoc. fold (output_path input_file output_file).
  set (st2 := mkState files _ _).
  destruct (to_csv_not_writable
              (DataFrame_of_column "ID" (sorted (elements all_ids)))
              (output_path input_file output_file) st2 Hw) as (e & He & Hfnf).
  exists e. split; [done|]. by erewrite run_bind_raise.
Qed.

Lemma convert_try_no_column st input_file output_file merge_ids t :
  lookup_path input_file (fs st) = Some (File (CsvText t)) →
  getitem (parse_table t) "ID Subjektu" = None →
  convert_try input_file output_file merge_ids st =
    (Raise (ValueError_column_not_found input_file (columns (parse_table t))), st).
Proof.
  intros Hin Hcol. unfold convert_try.
  rewrite (run_bind_ok _ _ _ _ _ (read_csv_table _ _ _ Hin)).
  apply getitem_None_columns in Hcol.
  rewrite bool_decide_false by done. simpl negb. cbv iota.
  reflexivity.
Qed.

Lemma read_csv_error p st e :
  read_error p (fs st) = Some e → read_csv p st = (Raise e, st).
Proof.
  unfold read_error, read_csv.
  destruct (lookup_path p (fs st)) as [[|[|t]]|]; by intros [= <-].
Qed.

Lemma read_error_None p files :
  read_error p files = None ↔ ∃ t, lookup_path p files = Some (File (CsvText t)).
Proof.
  unfold read_error.
  destruct (lookup_path p files) as [[|[|t]]|]; split;
    try done; try (intros [? ?]; done); eauto.
Qed.

Lemma convert_try_read_error st input_file output_file merge_ids e :
  read_error input_file (fs st) = Some e →
  convert_try input_file output_file merge_ids st = (Raise e, st).
Proof.
  intros H. unfold convert_try.
  by rewrite (run_bind_raise _ _ _ _ _ (read_csv_error _ _ _ H)).
Qed.

Lemma convert_handler input_file (c : M (option Path)) st e st' :
  c st = (Raise e, st') →
  try_except c
    (λ e, if is_FileNotFoundError e
          then print (Convert_file_not_found input_file);; mret None
          else print (Convert_error e);; mret None) st =
  (Ok None, mkState (fs st') (heap st') (stdout st' ++ [error_message input_file e])).
Proof.
  intros H. rewrite (run_try_raise _ _ _ _ _ H). unfold error_message.
  by destruct (is_FileNotFoundError e).
Qed.

Lemma convert_ok st input_file output_file merge_ids t col :
  lookup_path input_file (fs st) = Some (File (CsvText t)) →
  getitem (parse_table t) "ID Subjektu" = Some col →
  let all_ids := column_ids col ∪ pool st merge_ids in
  let out := output_path input_file output_file in
  writable out (fs st) = true →
  convert_csv_with_merge input_file output_file merge_ids st =
    (Ok (Some out),
     mkState (write_file out (id_file (sorted (elements all_ids))) (fs st))
             (heap st ++ [all_ids])
             (stdout st ++ added_messages (column_ids col) all_ids ++
                [Convert_success (size all_ids) input_file out])).
Proof.
  intros Hin Hcol all_ids out Hw. unfold convert_csv_with_merge.
  by rewrite (run_try_ok _ _ _ _ _ (convert_try_ok _ _ _ _ _ _ Hin Hcol Hw)).
Qed.

(** ** Sorting *)

Lemma sorted_Permutation l : sorted l ≡ₚ l.
Proof. apply merge_sort_Permutation. Qed.

Lemma sorted_StronglySorted l : StronglySorted String.le (sorted l).
Proof. apply (StronglySorted_merge_sort String.le). Qed.

(** The sorted list depends on the elements only, not on the order in
    which the set is iterated. *)
Lemma sorted_perm l1 l2 : l1 ≡ₚ l2 → sorted l1 = sorted l2.
Proof.
  intros H. apply (StronglySorted_unique String.le).
  - apply sorted_StronglySorted.
  - apply sorted_StronglySorted.
  - by rewrite !sorted_Permutation.
Qed.

Lemma elem_of_sorted x l : x ∈ sorted l ↔ x ∈ l.
Proof. by rewrite sorted_Permutation. Qed.

Lemma NoDup_sorted l : NoDup l → NoDup (sorted l).
Proof. by rewrite sorted_Permutation. Qed.

Lemma elem_of_column_ids x col : x ∈ column_ids col ↔ Some x ∈ col.
Proof.
  unfold column_ids. by rewrite elem_of_list_to_set, elem_of_dropna_astype_str.
Qed.

(** ** The output of the converter *)


(** C5: when the header of the input file has no column named exactly
    "ID Subjektu", the converter returns [None] without raising, prints an
    error that carries the path of the file and the columns that are
    present, and leaves the file system as it was. *)
Theorem C5_missing_column st input_file output_file merge_ids t :
  lookup_path input_file (fs st) = Some (File (CsvText t)) →
  "ID Subjektu" ∉ columns (parse_table t) →
  convert_csv_with_merge input_file output_file merge_ids st =
    (Ok None,
     mkState (fs st) (heap st)
             (stdout st ++
                [Convert_error
                   (ValueError_column_not_found input_file
                      (columns (parse_table t)))])).
Proof.
  intros Hin Hcol. apply getitem_None_columns in Hcol.
  unfold convert_csv_with_merge.
  by rewrite (convert_handler _ _ _ _ _
                (convert_try_no_column _ _ output_file merge_ids _ Hin Hcol)).
Qed.

(** C10: a file whose "ID Subjektu" column holds missing values only,
    converted with an empty or absent pool, is converted without error:
    the converter returns the output path and the file written there has
    the header "ID" and no rows. *)
Theorem C10_empty_column st input_file output_file merge_ids t col :
  lookup_path input_file (fs st) = Some (File (CsvText t)) →
  getitem (parse_table t) "ID Subjektu" = Some col →
  (∀ c, c ∈ col → c = None) →
  pool st merge_ids = ∅ →
  writable (output_path input_file output_file) (fs st) = true →
  ∃ st',
    convert_csv_with_merge input_file output_file merge_ids st =
      (Ok (Some (output_path input_file output_file)), st') ∧
    lookup_path (output_path input_file output_file) (fs st') =
      Some (File (CsvText [("ID", [])])).
Proof.
  intros Hin Hcol Hmissing Hpool Hw.
  pose proof (writable_not_nil _ _ Hw) as Hout.
  eexists. split; [by eapply convert_ok|]. cbn [fs].
  rewrite lookup_write_file, decide_True by done.
  assert (Hids : column_ids col = ∅).
  { apply set_eq. intros x. rewrite elem_of_column_ids.
    split; [|set_solver]. intros H. by apply Hmissing in H. }
  rewrite Hids, Hpool, union_empty_r_L, elements_empty. reflexivity.
Qed.

(** ** The merge pool *)

Lemma merge_id_column_cases df :
  match merge_id_column df with
  | Some c => ((c = "ID") ∨ (c = "ID Subjektu")) ∧ (c ∈ columns df)
  | None => ("ID" ∉ columns df) ∧ ("ID Subjektu" ∉ columns df)
  end.
Proof.
  unfold merge_id_column. repeat case_bool_decide; auto.
Qed.

Lemma deref_insert h r (X : gset string) :
  r < length h → deref (<[r := X]> h) r = X.
Proof. intros H. unfold deref. by rewrite list_lookup_insert_eq. Qed.

Lemma insert_deref_id h r :
  r < length h → <[r := deref h r ∪ ∅]> h = h.
Proof.
  intros H. rewrite union_empty_r_L. apply list_insert_id. unfold deref.
  destruct (lookup_lt_is_Some_2 h r H) as [X ->]. done.
Qed.

Lemma deref_insert_snoc h r (X F : gset string) :
  deref (<[r := X]> h ++ [F]) (length h) = F.
Proof. rewrite <- (length_insert h r X). apply deref_snoc. Qed.

Lemma get_merge_ids_body_spec r p st :
  r < length (heap st) →
  ∃ h', get_merge_ids_body r p () st =
    (Ok (),
     mkState (fs st)
             (<[r := (deref (heap st) r ∪ merge_file_ids (fs st) p)]> (heap st) ++ h')
             (stdout st ++ [merge_file_message (fs st) p])).
Proof.
  intros Hr. unfold merge_file_message, merge_file_ids.
  unfold get_merge_ids_body, try_except, mbind, M_bind, bind, read_csv, read_error.
  destruct (lookup_path p (fs st)) as [[|[|t]]|] eqn:Ht;
    try (exists []; rewrite app_nil_r, insert_deref_id by done; reflexivity).
  pose proof (merge_id_column_cases (parse_table t)) as Hc.
  destruct (merge_id_column (parse_table t)) as [c|] eqn:Hcol.
  - destruct Hc as [Hname Hmem].
    apply getitem_Some_columns in Hmem as [col Hget].
    exists [column_ids col].
    assert (str_truthy (Some c) = true) as -> by (by destruct Hname as [-> | ->]).
    cbn [default from_option id]. unfold getitem_. rewrite Hget.
    unfold mret, M_ret, ret, new_set, set_update, set_len, print.
    cbn [fs heap stdout default from_option id].
    rewrite deref_snoc, deref_app_l by done.
    rewrite insert_app_l by done.
    fold (column_ids col). by rewrite deref_insert_snoc.
  - exists []. rewrite app_nil_r, insert_deref_id by done. reflexivity.
Qed.

Lemma merge_loop_spec r csv_files st :
  r < length (heap st) →
  ∃ h', for_each csv_files (get_merge_ids_body r) () st =
    (Ok (),
     mkState (fs st)
             (<[r := (deref (heap st) r ∪ ⋃ (merge_file_ids (fs st) <$> csv_files))]>
                (heap st) ++ h')
             (stdout st ++ (merge_file_message (fs st) <$> csv_files))).
Proof.
  revert st. induction csv_files as [|p l IH]; intros st Hr.
  - exists []. simpl. rewrite !app_nil_r, insert_deref_id by done.
    by destruct st.
  - destruct (get_merge_ids_body_spec r p st Hr) as [h1 H1].
    cbn [for_each]. rewrite (run_bind_ok _ _ _ _ _ H1).
    set (st1 := mkState _ _ _).
    destruct (IH st1) as [h2 H2].
    { unfold st1. cbn [heap]. rewrite length_app, length_insert. lia. }
    rewrite H2. exists (h1 ++ h2). unfold st1. cbn [fs heap stdout].
    rewrite deref_app_l by (by rewrite length_insert).
    rewrite deref_insert by done.
    rewrite insert_app_l by (by rewrite length_insert).
    rewrite list_insert_insert_eq.
    rewrite fmap_cons, union_list_cons.
    by rewrite <- !app_assoc, (assoc_L (∪)).
Qed.

Lemma glob_csv_not_exists folder files :
  path_exists folder files = false → glob_csv folder files = [].
Proof.
  unfold path_exists, glob_csv, is_dir. destruct folder as [|d folder]; [done|].
  intros H. apply bool_decide_eq_false in H.
  rewrite bool_decide_false; [done|].
  intros Hd. apply H. rewrite Hd. eauto.
Qed.

(** [get_merge_ids] never raises; it returns a new set object that holds
    the pool of the file system. *)
Lemma get_merge_ids_spec st :
  ∃ h', get_merge_ids st =
    (Ok (length (heap st)),
     mkState (fs st) (heap st ++ [merge_pool (fs st)] ++ h')
             (stdout st ++ merge_messages (fs st))).
Proof.
  unfold get_merge_ids, merge_messages, merge_pool.
  run_step new_set.
  run_step exists_.
  cbn [fs heap stdout list_to_set].
  destruct (path_exists ["merge"] (fs st)) eqn:Hex; cbn [negb]; cbv beta iota.
  2:{ rewrite glob_csv_not_exists by done. exists []. simpl.
      by rewrite !app_nil_r. }
  run_step glob.
  cbn [fs heap stdout].
  destruct (decide (glob_csv ["merge"] (fs st) = [])) as [Hnil|Hnil].
  { rewrite !bool_decide_true by done. rewrite Hnil. exists []. simpl.
    by rewrite !app_nil_r. }
  rewrite !(bool_decide_false (glob_csv ["merge"] (fs st) = [])) by done.
  run_step print.
  cbn [fs heap stdout].
  set (st1 := mkState _ _ _).
  destruct (merge_loop_spec (length (heap st)) (glob_csv ["merge"] (fs st)) st1)
    as [h' Hloop].
  { unfold st1. cbn [heap]. rewrite length_app. simpl. lia. }
  rewrite (run_bind_ok _ _ _ _ _ Hloop).
  unfold st1. cbn [fs heap stdout]. rewrite deref_snoc, insert_snoc.
  rewrite union_empty_l_L.
  unfold mbind, M_bind, bind, set_truthy, set_len, print, mret, M_ret, ret.
  cbn [fs heap stdout].
  rewrite deref_app_l by (rewrite length_app; simpl; lia).
  rewrite deref_snoc.
  exists h'. case_bool_decide as Hempty; cbn [negb]; cbv beta iota.
  - rewrite app_nil_r. by rewrite <- !app_assoc.
  - cbn [fs heap stdout].
    rewrite deref_app_l by (rewrite length_app; simpl; lia).
    rewrite deref_snoc. by rewrite <- !app_assoc.
Qed.

(** Every file of the merge folder contributes identifiers that are not
    empty. *)
Lemma merge_file_ids_nonempty files p : "" ∉ merge_file_ids files p.
Proof.
  unfold merge_file_ids.
  destruct (lookup_path p files) as [[|[|t]]|]; try set_solver.
  destruct (merge_id_column (parse_table t)) as [c|]; [|set_solver].
  rewrite elem_of_column_ids.
  destruct (getitem (parse_table t) c) as [col|] eqn:Hget; simpl.
  - by eapply getitem_parse_table_nonempty.
  - by intros ?%elem_of_nil.
Qed.

Lemma merge_pool_nonempty files : "" ∉ merge_pool files.
Proof.
  unfold merge_pool. rewrite elem_of_union_list.
  intros (X & HX & Hin). apply list_elem_of_fmap in HX as (p & -> & _).
  by eapply merge_file_ids_nonempty.
Qed.

(** ** Enumeration order *)

Lemma lookup_path_None_not_nil p (files : FileSystem) :
  lookup_path p files = None → p ≠ [].
Proof. by intros H ->. Qed.

Lemma lookup_path_Some_elem p n (files : FileSystem) :
  p ≠ [] → lookup_path p files = Some n → (p, n) ∈ files.
Proof.
  intros Hp. destruct p as [|d p]; [done|]. cbn [lookup_path].
  induction files as [|[q m] files IH]; simpl; [done|].
  destruct (decide (q = d :: p)) as [->|Hne].
  - intros [= ->]. apply list_elem_of_here.
  - intros H. apply list_elem_of_further. auto.
Qed.

Lemma lookup_path_None p (files : FileSystem) :
  p ≠ [] → lookup_path p files = None ↔ p ∉ files.*1.
Proof.
  intros Hp. destruct p as [|d p]; [done|]. cbn [lookup_path].
  induction files as [|[q m] files IH]; simpl.
  - split; [intros _ H; inversion H | done].
  - rewrite not_elem_of_cons. destruct (decide (q = d :: p)) as [->|Hne].
    + split; [done | intros [? _]; done].
    + rewrite IH. split; [intros H; split; [congruence | done] | intros [_ H]; done].
Qed.

Lemma elem_lookup_path p n (files : FileSystem) :
  p ≠ [] → NoDup files.*1 → (p, n) ∈ files → lookup_path p files = Some n.
Proof.
  intros Hp. destruct p as [|d p]; [done|]. cbn [lookup_path].
  induction files as [|[q m] files IH]; simpl.
  - intros _ H. inversion H.
  - intros [Hq Hnd]%NoDup_cons. rewrite elem_of_cons.
    destruct (decide (q = d :: p)) as [->|Hne].
    + intros [[= ->]|Hin]; [done|].
      exfalso. apply Hq. apply list_elem_of_fmap. by exists (d :: p, n).
    + intros [[= ? ?]|Hin]; [congruence | auto].
Qed.

(** A lookup does not depend on the order of enumeration. *)
Lemma lookup_path_perm p (files1 files2 : FileSystem) :
  NoDup files1.*1 → files1 ≡ₚ files2 →
  lookup_path p files1 = lookup_path p files2.
Proof.
  intros Hnd Hperm.
  assert (Hnd2 : NoDup files2.*1) by (by rewrite <- Hperm).
  destruct (decide (p = [])) as [->|Hp]; [done|].
  destruct (lookup_path p files1) as [n|] eqn:H1.
  - symmetry. apply elem_lookup_path; [done..|].
    rewrite <- Hperm. by apply lookup_path_Some_elem.
  - symmetry. apply lookup_path_None; [done|]. rewrite <- Hperm.
    by apply lookup_path_None.
Qed.

Lemma is_dir_perm p (files1 files2 : FileSystem) :
  NoDup files1.*1 → files1 ≡ₚ files2 → is_dir p files1 = is_dir p files2.
Proof.
  intros Hnd Hperm. unfold is_dir. destruct p; [done|].
  by rewrite (lookup_path_perm _ _ _ Hnd Hperm).
Qed.

Lemma glob_csv_perm folder (files1 files2 : FileSystem) :
  NoDup files1.*1 → files1 ≡ₚ files2 →
  glob_csv folder files1 ≡ₚ glob_csv folder files2.
Proof.
  intros Hnd Hperm. unfold glob_csv.
  rewrite (is_dir_perm _ _ _ Hnd Hperm).
  destruct (is_dir folder files2); [|done]. by rewrite Hperm.
Qed.

Lemma merge_file_ids_perm p (files1 files2 : FileSystem) :
  NoDup files1.*1 → files1 ≡ₚ files2 →
  merge_file_ids files1 p = merge_file_ids files2 p.
Proof.
  intros Hnd Hperm. unfold merge_file_ids.
  by rewrite (lookup_path_perm _ _ _ Hnd Hperm).
Qed.

(** The pool does not depend on the order in which the files of the merge
    folder are enumerated. *)
Lemma merge_pool_perm (files1 files2 : FileSystem) :
  NoDup files1.*1 → files1 ≡ₚ files2 → merge_pool files1 = merge_pool files2.
Proof.
  intros Hnd Hperm. unfold merge_pool.
  rewrite (glob_csv_perm _ _ _ Hnd Hperm).
  f_equal. apply list_fmap_ext. intros _ p _.
  by apply merge_file_ids_perm.
Qed.

(** ** All the outcomes of the converter *)

Lemma quiet_error_message input_file e : quiet (error_message input_file e).
Proof. unfold error_message. by destruct (is_FileNotFoundError e). Qed.

Lemma quiet_added_messages A B : Forall quiet (added_messages A B).
Proof.
  unfold added_messages. destruct (0 <? _); [|done].
  by apply Forall_singleton.
Qed.

(** The converter never raises: either it writes the output file, or it
    returns [None] and the file system is as before. *)
Lemma convert_cases st input_file output_file merge_ids :
  (∃ t col,
      lookup_path input_file (fs st) = Some (File (CsvText t)) ∧
      getitem (parse_table t) "ID Subjektu" = Some col ∧
      writable (output_path input_file output_file) (fs st) = true ∧
      convert_csv_with_merge input_file output_file merge_ids st =
        (Ok (Some (output_path input_file output_file)),
         converted_state st input_file (output_path input_file output_file)
           (column_ids col) (column_ids col ∪ pool st merge_ids))) ∨
  (∃ h' e,
      (read_error input_file (fs st) = None →
       writable (output_path input_file output_file) (fs st) = true →
       ∃ t, lookup_path input_file (fs st) = Some (File (CsvText t)) ∧
            "ID Subjektu" ∉ columns (parse_table t)) ∧
      Forall quiet e ∧
      convert_csv_with_merge input_file output_file merge_ids st =
        (Ok None, mkState (fs st) (heap st ++ h') (stdout st ++ e))).
Proof.
  destruct (read_error input_file (fs st)) as [e|] eqn:Herr.
  - right. exists [], [error_message input_file e]. split; [done|].
    split; [by apply Forall_singleton, quiet_error_message|].
    unfold convert_csv_with_merge.
    rewrite (convert_handler _ _ _ _ _
               (convert_try_read_error _ _ output_file merge_ids _ Herr)).
    by rewrite app_nil_r.
  - apply read_error_None in Herr as [t Ht].
    destruct (getitem (parse_table t) "ID Subjektu") as [col|] eqn:Hcol.
    + destruct (writable (output_path input_file output_file) (fs st)) eqn:Hw.
      * left. exists t, col. repeat split; try done.
        exact (convert_ok _ _ _ merge_ids _ _ Ht Hcol Hw).
      * right.
        destruct (convert_try_not_writable _ _ _ merge_ids _ _ Ht Hcol Hw)
          as (e & Hfnf & Htry).
        eexists _, _. split; [done|]. split; [|
          unfold convert_csv_with_merge;
          rewrite (convert_handler _ _ _ _ _ Htry); cbn [fs heap stdout];
          by rewrite <- app_assoc].
        apply Forall_app. split; [apply quiet_added_messages|].
        by apply Forall_singleton, quiet_error_message.
    + right. exists [], [error_message input_file
                          (ValueError_column_not_found input_file
                             (columns (parse_table t)))].
      split.
      { intros _ _. exists t. split; [done|]. by apply getitem_None_columns. }
      split; [by apply Forall_singleton, quiet_error_message|].
      unfold convert_csv_with_merge.
      rewrite (convert_handler _ _ _ _ _
                 (convert_try_no_column _ _ output_file merge_ids _ Ht Hcol)).
      by rewrite app_nil_r.
Qed.

Lemma convert_Some_inv st input_file output_file merge_ids out st' :
  convert_csv_with_merge input_file output_file merge_ids st = (Ok (Some out), st') →
  ∃ t col,
    lookup_path input_file (fs st) = Some (File (CsvText t)) ∧
    getitem (parse_table t) "ID Subjektu" = Some col ∧
    out = output_path input_file output_file ∧
    st' = converted_state st input_file out
            (column_ids col) (column_ids col ∪ pool st merge_ids).
Proof.
  intros H.
  destruct (convert_cases st input_file output_file merge_ids)
    as [(t & col & Ht & Hcol & Hw & Hrun)|(h' & e & _ & _ & Hrun)];
    rewrite Hrun in H; [|done].
  injection H as <- <-. by exists t, col.
Qed.

Lemma convert_Some_not_nil st input_file output_file merge_ids out st' :
  convert_csv_with_merge input_file output_file merge_ids st = (Ok (Some out), st') →
  out ≠ [].
Proof.
  intros H.
  destruct (convert_cases st input_file output_file merge_ids)
    as [(t & col & Ht & Hcol & Hw & Hrun)|(h' & e & _ & _ & Hrun)];
    rewrite Hrun in H; [|done].
  injection H as <- <-. by eapply writable_not_nil.
Qed.

Lemma column_ids_ext col1 col2 :
  (∀ x, Some x ∈ col1 ↔ Some x ∈ col2) → column_ids col1 = column_ids col2.
Proof.
  intros H. apply set_eq. intros x. by rewrite !elem_of_column_ids.
Qed.

(** C2: the rows of a converted file are sorted ascending as plain
    strings, so that a file with the identifiers "2" and "10" has the row
    "10" before the row "2"; two conversions of inputs with the same
    identifiers and equal pools write the same rows in the same order,
    whatever the order of the input rows; and the pool itself does not
    depend on the order in which the merge files are enumerated.  The
    identifiers of an input are the texts of the values pandas reads from
    its column. *)
Theorem C2_sorted_deterministic :
  (∀ st input_file output_file merge_ids out st',
      convert_csv_with_merge input_file output_file merge_ids st =
        (Ok (Some out), st') →
      ∃ rows, lookup_path out (fs st') = Some (File (CsvText [("ID", rows)])) ∧
              StronglySorted String.le rows) ∧
  (∀ st input_file output_file merge_ids t col out st',
      lookup_path input_file (fs st) = Some (File (CsvText t)) →
      getitem (parse_table t) "ID Subjektu" = Some col →
      (∀ x, Some x ∈ col ∨ x ∈ pool st merge_ids ↔ x = "2" ∨ x = "10") →
      convert_csv_with_merge input_file output_file merge_ids st =
        (Ok (Some out), st') →
      lookup_path out (fs st') = Some (File (CsvText [("ID", ["10"; "2"])]))) ∧
  (∀ st1 st2 in1 in2 o1 o2 m1 m2 t1 t2 col1 col2 out1 out2 st1' st2',
      lookup_path in1 (fs st1) = Some (File (CsvText t1)) →
      getitem (parse_table t1) "ID Subjektu" = Some col1 →
      lookup_path in2 (fs st2) = Some (File (CsvText t2)) →
      getitem (parse_table t2) "ID Subjektu" = Some col2 →
      (∀ x, Some x ∈ col1 ↔ Some x ∈ col2) →
      pool st1 m1 = pool st2 m2 →
      convert_csv_with_merge in1 o1 m1 st1 = (Ok (Some out1), st1') →
      convert_csv_with_merge in2 o2 m2 st2 = (Ok (Some out2), st2') →
      ∃ rows,
        lookup_path out1 (fs st1') = Some (File (CsvText [("ID", rows)])) ∧
        lookup_path out2 (fs st2') = Some (File (CsvText [("ID", rows)]))) ∧
  (∀ files1 files2 h1 h2 o1 o2,
      NoDup files1.*1 → files1 ≡ₚ files2 →
      ∃ r1 r2 st1 st2,
        get_merge_ids (mkState files1 h1 o1) = (Ok r1, st1) ∧
        get_merge_ids (mkState files2 h2 o2) = (Ok r2, st2) ∧
        deref (heap st1) r1 = deref (heap st2) r2).
Proof.
  split; [|split; [|split]].
  - intros st input_file output_file merge_ids out st' H.
    pose proof (convert_Some_not_nil _ _ _ _ _ _ H) as Hout.
    apply convert_Some_inv in H as (t & col & _ & _ & _ & ->).
    eexists. unfold converted_state. cbn [fs].
    rewrite lookup_write_file, decide_True by done.
    split; [reflexivity|]. apply sorted_StronglySorted.
  - intros st input_file output_file merge_ids t col out st' Ht Hcol Hids H.
    pose proof (convert_Some_not_nil _ _ _ _ _ _ H) as Hout.
    apply convert_Some_inv in H as (t' & col' & Ht' & Hcol' & _ & ->).
    simplify_eq. unfold converted_state. cbn [fs].
    rewrite lookup_write_file, decide_True by done.
    assert (Hset : column_ids col ∪ pool st merge_ids = list_to_set ["2"; "10"]).
    { apply set_eq. intros x.
      rewrite elem_of_union, elem_of_column_ids, Hids, elem_of_list_to_set.
      rewrite !elem_of_cons, elem_of_nil. tauto. }
    rewrite Hset. by vm_compute.
  - intros st1 st2 in1 in2 o1 o2 m1 m2 t1 t2 col1 col2 out1 out2 st1' st2'
      Ht1 Hc1 Ht2 Hc2 Hids Hpool H1 H2.
    pose proof (convert_Some_not_nil _ _ _ _ _ _ H1) as Hout1.
    pose proof (convert_Some_not_nil _ _ _ _ _ _ H2) as Hout2.
    apply convert_Some_inv in H1 as (t1' & col1' & Ht1' & Hc1' & _ & ->).
    apply convert_Some_inv in H2 as (t2' & col2' & Ht2' & Hc2' & _ & ->).
    simplify_eq. unfold converted_state. cbn [fs].
    rewrite !lookup_write_file, !decide_True by done.
    rewrite (column_ids_ext _ _ Hids), Hpool. eauto.
  - intros files1 files2 h1 h2 o1 o2 Hnd Hperm.
    destruct (get_merge_ids_spec (mkState files1 h1 o1)) as [h1' H1].
    destruct (get_merge_ids_spec (mkState files2 h2 o2)) as [h2' H2].
    eexists _, _, _, _. split; [exact H1|]. split; [exact H2|].
    cbn [fs heap stdout]. rewrite !deref_middle.
    by apply merge_pool_perm.
Qed.

(** ** The merge-pool builder, file by file *)

Lemma merge_body_read_error r p st e :
  read_error p (fs st) = Some e →
  get_merge_ids_body r p () st =
    (Ok (), mkState (fs st) (heap st) (stdout st ++ [Merge_error_reading (name p) e])).
Proof.
  intros H. unfold get_merge_ids_body.
  by rewrite (run_try_raise _ _ _ _ _
                (run_bind_raise _ _ _ _ _ (read_csv_error _ _ _ H))).
Qed.

Lemma merge_body_no_column r p st t :
  lookup_path p (fs st) = Some (File (CsvText t)) →
  merge_id_column (parse_table t) = None →
  get_merge_ids_body r p () st =
    (Ok (), mkState (fs st) (heap st) (stdout st ++ [Merge_no_id_column (name p)])).
Proof.
  intros Ht Hc. unfold get_merge_ids_body, try_except.
  rewrite (run_bind_ok _ _ _ _ _ (read_csv_table _ _ _ Ht)), Hc.
  reflexivity.
Qed.

Lemma merge_body_column r p st t c col :
  lookup_path p (fs st) = Some (File (CsvText t)) →
  merge_id_column (parse_table t) = Some c →
  getitem (parse_table t) c = Some col →
  r < length (heap st) →
  get_merge_ids_body r p () st =
    (Ok (),
     mkState (fs st)
             (<[r := (deref (heap st) r ∪ column_ids col)]> (heap st) ++ [column_ids col])
             (stdout st ++ [Merge_file_ids (name p) (size (column_ids col))])).
Proof.
  intros Ht Hc Hget Hr. unfold get_merge_ids_body, try_except.
  rewrite (run_bind_ok _ _ _ _ _ (read_csv_table _ _ _ Ht)), Hc.
  pose proof (merge_id_column_cases (parse_table t)) as Hcases.
  rewrite Hc in Hcases. destruct Hcases as [Hname _].
  assert (str_truthy (Some c) = true) as -> by (by destruct Hname as [-> | ->]).
  cbn [default from_option id]. unfold getitem_. rewrite Hget.
  unfold mbind, M_bind, bind, mret, M_ret, ret, new_set, set_update, set_len, print.
  cbn [fs heap stdout].
  rewrite deref_snoc, deref_app_l by done.
  rewrite insert_app_l by done.
  fold (column_ids col). by rewrite deref_insert_snoc.
Qed.

Lemma elem_of_merge_file_ids files p x :
  x ∈ merge_file_ids files p ↔
  ∃ t c col,
    lookup_path p files = Some (File (CsvText t)) ∧
    merge_id_column (parse_table t) = Some c ∧
    getitem (parse_table t) c = Some col ∧
    Some x ∈ col.
Proof.
  unfold merge_file_ids. split.
  - destruct (lookup_path p files) as [[|[|t]]|] eqn:Ht;
      try by intros ?%elem_of_empty.
    pose proof (merge_id_column_cases (parse_table t)) as Hc.
    destruct (merge_id_column (parse_table t)) as [c|] eqn:Hcol;
      [|by intros ?%elem_of_empty].
    destruct Hc as [_ [col Hget]%getitem_Some_columns].
    rewrite Hget. cbn [default from_option id].
    rewrite elem_of_column_ids. intros Hx. by exists t, c, col.
  - intros (t & c & col & -> & -> & -> & Hx). by apply elem_of_column_ids.
Qed.

Lemma get_merge_ids_empty st :
  glob_csv ["merge"] (fs st) = [] →
  get_merge_ids st =
    (Ok (length (heap st)), mkState (fs st) (heap st ++ [∅]) (stdout st)).
Proof.
  intros Hnil. unfold get_merge_ids.
  run_step new_set.
  run_step exists_.
  cbn [fs heap stdout list_to_set].
  destruct (path_exists ["merge"] (fs st)); cbn [negb]; cbv beta iota; [|done].
  run_step glob.
  cbn [fs heap stdout]. by rewrite Hnil, bool_decide_true.
Qed.

(** C8: the builder returns an empty pool, and prints nothing, when the
    merge folder is absent or holds no CSV file; for each file it takes the
    column "ID" if there is one, else the column "ID Subjektu", and with
    neither it prints a warning and adds nothing; an error in reading one
    file is caught and printed, and every file that can be read still
    contributes its identifiers to the pool.  The identifiers of a file,
    which are counted in its line and added to the pool, are the texts of
    the values pandas has read from the column that are not missing. *)
Theorem C8_merge_pool_builder :
  (∀ st, path_exists ["merge"] (fs st) = false ∨ glob_csv ["merge"] (fs st) = [] →
         get_merge_ids st =
           (Ok (length (heap st)),
            mkState (fs st) (heap st ++ [∅]) (stdout st))) ∧
  (∀ df, ("ID" ∈ columns df → merge_id_column df = Some "ID") ∧
         ("ID" ∉ columns df → "ID Subjektu" ∈ columns df →
          merge_id_column df = Some "ID Subjektu") ∧
         ("ID" ∉ columns df → "ID Subjektu" ∉ columns df →
          merge_id_column df = None)) ∧
  (∀ r p st t,
      r < length (heap st) →
      lookup_path p (fs st) = Some (File (CsvText t)) →
      match merge_id_column (parse_table t) with
      | Some c =>
          ∃ col, getitem (parse_table t) c = Some col ∧
            get_merge_ids_body r p () st =
              (Ok (),
               mkState (fs st)
                 (<[r := (deref (heap st) r ∪ column_ids col)]> (heap st)
                    ++ [column_ids col])
                 (stdout st ++ [Merge_file_ids (name p) (size (column_ids col))]))
      | None =>
          get_merge_ids_body r p () st =
            (Ok (),
             mkState (fs st) (heap st)
                     (stdout st ++ [Merge_no_id_column (name p)]))
      end) ∧
  (∀ r p st e,
      read_error p (fs st) = Some e →
      get_merge_ids_body r p () st =
        (Ok (),
         mkState (fs st) (heap st)
                 (stdout st ++ [Merge_error_reading (name p) e]))) ∧
  (∀ st, ∃ r st',
      get_merge_ids st = (Ok r, st') ∧ fs st' = fs st ∧
      ∀ x, x ∈ deref (heap st') r ↔
           ∃ p t c col,
             p ∈ glob_csv ["merge"] (fs st) ∧
             lookup_path p (fs st) = Some (File (CsvText t)) ∧
             merge_id_column (parse_table t) = Some c ∧
             getitem (parse_table t) c = Some col ∧
             Some x ∈ col).
Proof.
  split; [|split; [|split; [|split]]].
  - intros st [H|H]; apply get_merge_ids_empty; [by apply glob_csv_not_exists | done].
  - intros df. unfold merge_id_column. repeat case_bool_decide; done.
  - intros r p st t Hr Ht.
    destruct (merge_id_column (parse_table t)) as [c|] eqn:Hc.
    + pose proof (merge_id_column_cases (parse_table t)) as Hcases.
      rewrite Hc in Hcases. destruct Hcases as [_ Hmem].
      apply getitem_Some_columns in Hmem as [col Hget].
      exists col. split; [done|]. by eapply merge_body_column.
    + by eapply merge_body_no_column.
  - intros r p st e. apply merge_body_read_error.
  - intros st. destruct (get_merge_ids_spec st) as [h' Hspec].
    eexists _, _. split; [exact Hspec|]. cbn [fs heap]. split; [done|].
    intros x. rewrite deref_middle. unfold merge_pool.
    rewrite elem_of_union_list. split.
    + intros (X & HX & Hx). apply list_elem_of_fmap in HX as (p & -> & Hp).
      apply elem_of_merge_file_ids in Hx as (t & c & col & Hx).
      by exists p, t, c, col.
    + intros (p & t & c & col & Hp & Hx).
      exists (merge_file_ids (fs st) p). split.
      * apply list_elem_of_fmap. eauto.
      * apply elem_of_merge_file_ids. by exists t, c, col.
Qed.

(** ** The classifier *)

(** The classifier reads only: it returns its answer in the same state. *)
Lemma is_already_converted_run p st :
  is_already_converted p st = (Ok (already_converted (fs st) p), st).
Proof.
  unfold is_already_converted, already_converted, header_converted.
  destruct (endswith (stem p) "_converted"); [done|].
  unfold try_except, mbind, M_bind, bind, read_csv.
  destruct (lookup_path p (fs st)) as [[|[|t]]|]; try done.
  destruct (_ && _); [done|]. by case_bool_decide.
Qed.

Lemma main_body_skip r p c s st :
  already_converted (fs st) p = true →
  main_body r p (c, s) st =
    (Ok (c, s + 1),
     mkState (fs st) (heap st)
             (stdout st ++ [Main_processing (name p); Main_skip_converted (name p)])).
Proof.
  intros H. unfold main_body.
  run_step print.
  rewrite (run_bind_ok _ _ _ _ _ (is_already_converted_run _ _)).
  cbn [fs heap stdout]. rewrite H.
  unfold mbind, M_bind, bind, print, mret, M_ret, ret. cbn [fs heap stdout].
  by rewrite <- app_assoc.
Qed.

Lemma main_body_exists r p c s st :
  already_converted (fs st) p = false →
  path_exists (converted_path p) (fs st) = true →
  main_body r p (c, s) st =
    (Ok (c, s + 1),
     mkState (fs st) (heap st)
             (stdout st ++ [Main_processing (name p);
                            Main_skip_exists (name p) (name (converted_path p))])).
Proof.
  intros H Hex. unfold main_body.
  run_step print.
  rewrite (run_bind_ok _ _ _ _ _ (is_already_converted_run _ _)).
  cbn [fs heap stdout]. rewrite H.
  unfold mbind, M_bind, bind, exists_, print, mret, M_ret, ret.
  cbn [fs heap stdout]. rewrite Hex. cbn [fs heap stdout].
  by rewrite <- app_assoc.
Qed.

Lemma main_body_convert r p c s st :
  already_converted (fs st) p = false →
  path_exists (converted_path p) (fs st) = false →
  main_body r p (c, s) st =
    match convert_csv_with_merge p (Some (converted_path p)) (Some r)
            (processing st p) with
    | (Ok (Some _), st') => (Ok (c + 1, s), st')
    | (Ok None, st') => (Ok (c, s), st')
    | (Raise e, st') => (Raise e, st')
    end.
Proof.
  intros H Hex. unfold main_body.
  run_step print.
  rewrite (run_bind_ok _ _ _ _ _ (is_already_converted_run _ _)).
  cbn [fs heap stdout]. rewrite H.
  run_step exists_.
  cbn [fs heap stdout]. rewrite Hex.
  unfold mbind, M_bind, bind. fold (processing st p).
  destruct (convert_csv_with_merge _ _ _ _) as [[[out|]|e] st']; done.
Qed.

(** C3: a file whose stem ends in "_converted" is taken as converted
    whatever it holds; so is a file whose header is the single column
    "ID"; a file that does not have that stem and has a column
    "ID Subjektu" in its header is to be converted; a file with several
    columns and no "ID Subjektu" is not, and the batch driver skips every
    file the classifier answers [True] for, counting it as skipped. *)
Theorem C3_classification :
  stem ["input"; "x_converted.csv"] = "x_converted" ∧
  (∀ st p, endswith (stem p) "_converted" = true →
           is_already_converted p st = (Ok true, st)) ∧
  (∀ st p t, lookup_path p (fs st) = Some (File (CsvText t)) →
             columns (parse_table t) = ["ID"] →
             is_already_converted p st = (Ok true, st)) ∧
  (∀ st p t, endswith (stem p) "_converted" = false →
             lookup_path p (fs st) = Some (File (CsvText t)) →
             "ID Subjektu" ∈ columns (parse_table t) →
             is_already_converted p st = (Ok false, st)) ∧
  (∀ st p t, lookup_path p (fs st) = Some (File (CsvText t)) →
             1 < length (columns (parse_table t)) →
             "ID Subjektu" ∉ columns (parse_table t) →
             is_already_converted p st = (Ok true, st)) ∧
  (∀ st p r c s, is_already_converted p st = (Ok true, st) →
             main_body r p (c, s) st =
               (Ok (c, s + 1),
                mkState (fs st) (heap st)
                        (stdout st ++ [Main_processing (name p);
                                       Main_skip_converted (name p)]))).
Proof.
  split; [by vm_compute|]. split; [|split; [|split; [|split]]].
  - intros st p H. rewrite is_already_converted_run. unfold already_converted.
    by rewrite H.
  - intros st p t Ht Hcols. rewrite is_already_converted_run.
    unfold already_converted. rewrite Ht, Hcols.
    by destruct (endswith (stem p) "_converted").
  - intros st p t Hstem Ht Hcol. rewrite is_already_converted_run.
    unfold already_converted, header_converted. rewrite Hstem, Ht.
    rewrite (bool_decide_true ("ID Subjektu" ∈ _)) by done.
    destruct (_ && _) eqn:Hone; [|done].
    apply andb_true_iff in Hone as [Hlen Hid].
    apply Nat.eqb_eq in Hlen. apply bool_decide_eq_true in Hid.
    destruct (columns (parse_table t)) as [|c0 [|c1 cols]]; simplify_eq/=.
    apply list_elem_of_singleton in Hcol. done.
  - intros st p t Ht Hlen Hcol. rewrite is_already_converted_run.
    unfold already_converted, header_converted. rewrite Ht.
    rewrite (bool_decide_false ("ID Subjektu" ∈ _)) by done.
    destruct (endswith (stem p) "_converted"); [done|].
    by destruct (_ && _).
  - intros st p r c s H. rewrite is_already_converted_run in H.
    apply main_body_skip. congruence.
Qed.

Lemma already_converted_read_error files p e :
  endswith (stem p) "_converted" = false →
  read_error p files = Some e →
  already_converted files p = false.
Proof.
  unfold already_converted, read_error. intros ->.
  by destruct (lookup_path p files) as [[|[|t]]|].
Qed.

Lemma convert_read_error st input_file output_file merge_ids e :
  read_error input_file (fs st) = Some e →
  convert_csv_with_merge input_file output_file merge_ids st =
    (Ok None,
     mkState (fs st) (heap st) (stdout st ++ [error_message input_file e])).
Proof.
  intros H. unfold convert_csv_with_merge.
  by rewrite (convert_handler _ _ _ _ _
                (convert_try_read_error _ _ output_file merge_ids _ H)).
Qed.

(** C6, amended: a file without the "_converted" stem that cannot be
    parsed is answered [False] by the classifier; the driver skips it, and
    counts it as skipped, only when a file exists at its output path, and
    otherwise calls the converter, which prints the error of the read,
    returns [None] and writes nothing, and neither counter changes. *)
Theorem C6_unparseable_not_skipped st p e r c s :
  endswith (stem p) "_converted" = false →
  read_error p (fs st) = Some e →
  is_already_converted p st = (Ok false, st) ∧
  main_body r p (c, s) st =
    if path_exists (converted_path p) (fs st)
    then (Ok (c, s + 1),
          mkState (fs st) (heap st)
                  (stdout st ++ [Main_processing (name p);
                                 Main_skip_exists (name p) (name (converted_path p))]))
    else (Ok (c, s),
          mkState (fs st) (heap st)
                  (stdout st ++ [Main_processing (name p); error_message p e])).
Proof.
  intros Hstem Herr.
  pose proof (already_converted_read_error _ _ _ Hstem Herr) as Hcls.
  split; [by rewrite is_already_converted_run, Hcls|].
  destruct (path_exists (converted_path p) (fs st)) eqn:Hex.
  - by apply main_body_exists.
  - rewrite main_body_convert by done.
    rewrite (convert_read_error (processing st p) p _ _ e Herr).
    unfold processing. cbn [fs heap stdout]. by rewrite <- app_assoc.
Qed.

(** ** The entry point *)

Lemma main_no_input st :
  path_exists ["input"] (fs st) = false →
  main st =
    (Ok (), mkState (fs st) (heap st)
                    (stdout st ++ [Main_no_input_folder; Main_please_create])).
Proof.
  intros H. unfold main.
  run_step exists_.
  rewrite H. cbn [negb]. cbv iota.
  unfold mbind, M_bind, bind, print. cbn [fs heap stdout].
  by rewrite <- app_assoc.
Qed.

(** C7, amended: when the input folder does not exist, the run prints the
    two lines that report it and ends; no file is read or written, no pool
    is built, and [main] returns normally, so that the exit status of the
    script is 0. *)
Theorem C7_missing_input_folder files :
  path_exists ["input"] files = false →
  main (initial files) =
    (Ok (), mkState files [] [Main_no_input_folder; Main_please_create]) ∧
  script files = (0, mkState files [] [Main_no_input_folder; Main_please_create]).
Proof.
  intros H. pose proof (main_no_input (initial files) H) as Hmain.
  split; [exact Hmain|]. unfold script. by rewrite Hmain.
Qed.

(** ** Names of output files *)

Lemma endswith_app a t : endswith (a +:+ t) t = true.
Proof.
  induction a as [|c a IH].
  - change ("" +:+ t) with t. destruct t; cbn [endswith]; [done|].
    by rewrite String.eqb_refl.
  - change (String c a +:+ t) with (String c (a +:+ t)). cbn [endswith].
    rewrite IH. apply orb_true_r.
Qed.

Lemma endswith_inv s t : endswith s t = true → ∃ a, s = a +:+ t.
Proof.
  induction s as [|c s IH]; cbn [endswith].
  - rewrite orb_false_r. intros H%String.eqb_eq. exists "". by subst.
  - intros [H|H]%orb_true_iff.
    + apply String.eqb_eq in H. exists "". by subst.
    + destruct (IH H) as [a ->]. by exists (String c a).
Qed.

Lemma append_nil t : "" +:+ t = t.
Proof. reflexivity. Qed.

Lemma append_cons x a t : String x a +:+ t = String x (a +:+ t).
Proof. reflexivity. Qed.

Lemma rfind_app c a t :
  rfind c (a +:+ t) =
  match rfind c t with
  | Some i => Some (String.length a + i)
  | None => rfind c a
  end.
Proof.
  induction a as [|x a IH].
  - rewrite append_nil. by destruct (rfind c t).
  - rewrite append_cons. cbn [rfind String.length]. rewrite IH.
    by destruct (rfind c t).
Qed.

Lemma length_append a t :
  String.length (a +:+ t) = String.length a + String.length t.
Proof.
  induction a as [|x a IH]; [done|].
  rewrite append_cons. cbn [String.length]. by rewrite IH.
Qed.

Lemma append_assoc a b c : (a +:+ b) +:+ c = a +:+ (b +:+ c).
Proof.
  induction a as [|x a IH]; [done|]. rewrite !append_cons. by rewrite IH.
Qed.

Lemma append_not_nil a b : b ≠ "" → a +:+ b ≠ "".
Proof.
  intros Hb H. apply (f_equal String.length) in H.
  rewrite length_append in H. destruct b; [done|]. simpl in H. lia.
Qed.

Lemma substring_all t : String.substring 0 (String.length t) t = t.
Proof. induction t; simpl; [done | by f_equal]. Qed.

Lemma substring_0_nil t : String.substring 0 0 t = "".
Proof. by destruct t. Qed.

Lemma substring_prefix a t :
  String.substring 0 (String.length a) (a +:+ t) = a.
Proof.
  induction a as [|x a IH].
  - apply substring_0_nil.
  - rewrite append_cons. cbn [String.length String.substring]. by rewrite IH.
Qed.

Lemma substring_suffix a t :
  String.substring (String.length a) (String.length t) (a +:+ t) = t.
Proof.
  induction a as [|x a IH].
  - apply substring_all.
  - rewrite append_cons. cbn [String.length String.substring]. done.
Qed.

Lemma name_joinpath d n : name (joinpath d n) = n.
Proof. unfold name, joinpath. apply last_last. Qed.

Lemma parent_joinpath d n : parent (joinpath d n) = d.
Proof. unfold parent, joinpath. apply removelast_last. Qed.

Lemma converted_path_not_nil p : converted_path p ≠ [].
Proof. unfold converted_path, joinpath. by destruct (parent p). Qed.

(** The suffix index of a name [a.ext] whose extension [ext] has no dot and
    whose part [a] before the dot is not empty. *)
Lemma suffix_index_ext a ext :
  a ≠ "" → ext ≠ "" → rfind "."%char ext = None →
  suffix_index (a +:+ String "."%char ext) = Some (String.length a).
Proof.
  intros Ha Hext Hdot. unfold suffix_index.
  rewrite rfind_app. simpl. rewrite Hdot. simpl. rewrite Nat.add_0_r.
  rewrite length_append. simpl.
  destruct a; [done|]. destruct ext; [done|]. simpl.
  replace (_ <? _) with true; [done|].
  symmetry. apply Nat.ltb_lt. lia.
Qed.

Lemma stem_csv d a :
  a ≠ "" → stem (joinpath d (a +:+ ".csv")) = a ∧ suffix (joinpath d (a +:+ ".csv")) = ".csv".
Proof.
  intros Ha. unfold stem, suffix. rewrite name_joinpath.
  rewrite (suffix_index_ext a "csv") by done. cbv zeta. split.
  - apply substring_prefix.
  - rewrite length_append, Nat.add_comm, Nat.add_sub. apply substring_suffix.
Qed.

(** The name of an output file: an input [a.csv] gives [a_converted.csv],
    whose stem carries the marker; the input [.csv] gives a name that
    [glob("*.csv")] does not match. *)
Lemma converted_path_marked p :
  endswith (name p) ".csv" = true →
  endswith (name (converted_path p)) ".csv" = true →
  endswith (stem (converted_path p)) "_converted" = true.
Proof.
  intros Hcsv. apply endswith_inv in Hcsv as [a Ha].
  unfold converted_path.
  destruct (decide (a = "")) as [->|Hne].
  - assert (Hstem : stem p = ".csv" ∧ suffix p = "").
    { unfold stem, suffix. rewrite Ha. by vm_compute. }
    destruct Hstem as [-> ->]. rewrite name_joinpath. by vm_compute.
  - assert (Hstem : stem p = a ∧ suffix p = ".csv").
    { pose proof (stem_csv (parent p) a Hne) as H.
      unfold stem, suffix in *. rewrite name_joinpath in H. by rewrite Ha. }
    destruct Hstem as [-> ->]. intros _.
    pose proof (stem_csv (parent p) (a +:+ "_converted")) as [H _].
    { by apply append_not_nil. }
    rewrite append_assoc in H. rewrite H. apply endswith_app.
Qed.

(** ** The batch driver, file by file *)

Lemma path_exists_lookup p files :
  p ≠ [] → path_exists p files = bool_decide (is_Some (lookup_path p files)).
Proof. by destruct p. Qed.

Lemma path_exists_false_lookup p files :
  p ≠ [] → path_exists p files = false → lookup_path p files = None.
Proof.
  intros Hp. rewrite path_exists_lookup by done.
  intros H%bool_decide_eq_false. by apply eq_None_not_Some.
Qed.

Lemma path_exists_app p files new :
  path_exists p files = true → path_exists p (files ++ new) = true.
Proof.
  destruct p as [|d p]; [done|]. unfold path_exists.
  rewrite !bool_decide_eq_true, lookup_path_app.
  by intros [n ->].
Qed.

Lemma lookup_only_files p n (new : FileSystem) :
  p ≠ [] → only_files new → lookup_path p new = Some n → ∃ c, n = File c.
Proof.
  intros Hp Hnew H%lookup_path_Some_elem; [|done].
  unfold only_files in Hnew. rewrite Forall_forall in Hnew.
  by apply Hnew in H.
Qed.

Lemma is_dir_app_false p files new :
  only_files new → is_dir p files = false → is_dir p (files ++ new) = false.
Proof.
  intros Hnew. destruct p as [|d p]; [done|]. unfold is_dir.
  rewrite !bool_decide_eq_false, lookup_path_app.
  destruct (lookup_path (d :: p) files) as [n|]; [done|].
  intros _ H. by destruct (lookup_only_files (d :: p) _ _ ltac:(done) Hnew H).
Qed.

Lemma already_converted_app files new p :
  is_Some (lookup_path p files) →
  already_converted (files ++ new) p = already_converted files p.
Proof.
  intros [n Hn]. unfold already_converted. by rewrite lookup_path_app, Hn.
Qed.

Lemma read_error_app files new p :
  is_Some (lookup_path p files) →
  read_error p (files ++ new) = read_error p files.
Proof.
  intros [n Hn]. unfold read_error. by rewrite lookup_path_app, Hn.
Qed.

(** A settled file stays settled when files are added. *)
Lemma settled_mono files new p :
  is_Some (lookup_path p files) → only_files new →
  settled files p → settled (files ++ new) p.
Proof.
  intros Hp Hnew [H|[H|[H|H]]].
  - left. by rewrite already_converted_app.
  - right. left. by apply path_exists_app.
  - right. right. left. by rewrite read_error_app.
  - pose proof (converted_path_not_nil p) as Hq.
    destruct (path_exists (converted_path p) (files ++ new)) eqn:Hex.
    { right. by left. }
    right. right. right.
    apply path_exists_false_lookup in Hex; [|done].
    unfold writable in *. rewrite Hex.
    rewrite lookup_path_app in Hex.
    destruct (lookup_path (converted_path p) files) as [n|]; [done|].
    by apply is_dir_app_false.
Qed.

Lemma already_converted_false_column files p t :
  already_converted files p = false →
  lookup_path p files = Some (File (CsvText t)) →
  "ID Subjektu" ∈ columns (parse_table t).
Proof.
  unfold already_converted, header_converted. intros H Ht. rewrite Ht in H.
  destruct (endswith _ _); [done|]. destruct (_ && _); [done|].
  by case_bool_decide.
Qed.

(** One turn of the loop of [main]: the driver never raises, it changes
    the file system at most by adding the output file of [p], and [p] is
    settled afterwards. *)
Lemma main_body_step r p c s st :
  ∃ c' s' new h' o',
    main_body r p (c, s) st =
      (Ok (c', s'),
       mkState (fs st ++ new) (heap st ++ h') (stdout st ++ o')) ∧
    (new = [] ∨
     ∃ rows, converted_rows (fs st) p (deref (heap st) r) = Some rows ∧
             new = [(converted_path p, id_file rows)] ∧
             lookup_path (converted_path p) (fs st) = None) ∧
    settled (fs st ++ new) p.
Proof.
  destruct (already_converted (fs st) p) eqn:Hcls.
  { exists c, (s + 1), [], [], [Main_processing (name p); Main_skip_converted (name p)].
    rewrite !app_nil_r. split; [by apply main_body_skip|].
    split; [by left | by left]. }
  destruct (path_exists (converted_path p) (fs st)) eqn:Hex.
  { exists c, (s + 1), [], [],
      [Main_processing (name p); Main_skip_exists (name p) (name (converted_path p))].
    rewrite !app_nil_r. split; [by apply main_body_exists|].
    split; [by left | by right; left]. }
  rewrite main_body_convert by done.
  pose proof (path_exists_false_lookup _ _ (converted_path_not_nil p) Hex) as Hnone.
  destruct (convert_cases (processing st p) p (Some (converted_path p)) (Some r))
    as [(t & col & Ht & Hcol & Hw & Hrun)|(h' & e & Hwhy & _ & Hrun)];
    rewrite Hrun; cbn [fs heap stdout processing output_path] in *.
  - unfold converted_state. cbn [fs heap stdout processing].
    unfold write_file. rewrite Hnone.
    eexists (c + 1), s, _, _, _. rewrite <- !app_assoc.
    split; [reflexivity|]. split.
    { right. eexists. split; [|by split].
      unfold converted_rows. by rewrite Ht, Hcol. }
    right. left. rewrite path_exists_lookup by apply converted_path_not_nil.
    apply bool_decide_eq_true. rewrite lookup_path_app, Hnone.
    rewrite lookup_path_singleton by apply converted_path_not_nil. eauto.
  - exists c, s, [], h', (Main_processing (name p) :: e).
    rewrite !app_nil_r, <- !app_assoc. split; [reflexivity|].
    split; [by left|].
    destruct (read_error p (fs st)) as [err|] eqn:Herr.
    { right. right. left. eauto. }
    destruct (writable (converted_path p) (fs st)) eqn:Hw.
    2:{ by right; right; right. }
    destruct (Hwhy eq_refl eq_refl) as (t & Ht & Hcol).
    exfalso. apply Hcol. by eapply already_converted_false_column.
Qed.

Lemma output_of_only_files l files B new :
  Forall (output_of l files B) new → only_files new.
Proof.
  intros H. eapply Forall_impl; [exact H|].
  intros e (src & rows & _ & _ & -> & _). by eexists.
Qed.

Lemma lookup_path_app_Some p (files new : FileSystem) :
  is_Some (lookup_path p files) → is_Some (lookup_path p (files ++ new)).
Proof. intros [n Hn]. rewrite lookup_path_app, Hn. eauto. Qed.

Lemma lookup_path_app_None p (files new : FileSystem) :
  lookup_path p (files ++ new) = None → lookup_path p files = None.
Proof. rewrite lookup_path_app. by destruct (lookup_path p files). Qed.

Lemma converted_rows_app files new src B :
  is_Some (lookup_path src files) →
  converted_rows (files ++ new) src B = converted_rows files src B.
Proof.
  intros [n Hn]. unfold converted_rows. by rewrite lookup_path_app, Hn.
Qed.

(** The loop of [main]: it never raises, it only adds output files of the
    files it is given, and afterwards each of these is settled. *)
Lemma main_loop_spec r l c s st :
  r < length (heap st) →
  (∀ p, p ∈ l → is_Some (lookup_path p (fs st))) →
  ∃ c' s' new h' o',
    for_each l (main_body r) (c, s) st =
      (Ok (c', s'),
       mkState (fs st ++ new) (heap st ++ h') (stdout st ++ o')) ∧
    Forall (output_of l (fs st) (deref (heap st) r)) new ∧
    (∀ p, p ∈ l → settled (fs st ++ new) p).
Proof.
  revert c s st. induction l as [|p l IH]; intros c s st Hr Hl.
  - exists c, s, [], [], []. rewrite !app_nil_r. destruct st.
    split; [done|]. split; [done|]. by intros p ?%elem_of_nil.
  - destruct (main_body_step r p c s st)
      as (c1 & s1 & new1 & h1 & o1 & Hstep & Hnew1 & Hsettled).
    cbn [for_each]. rewrite (run_bind_ok _ _ _ _ _ Hstep).
    set (st1 := mkState _ _ _).
    destruct (IH c1 s1 st1) as (c2 & s2 & new2 & h2 & o2 & Hloop & Hnew2 & Hall).
    { unfold st1. cbn [heap]. rewrite length_app. lia. }
    { intros q Hq. unfold st1. cbn [fs]. apply lookup_path_app_Some.
      apply Hl. by right. }
    unfold st1 in *. cbn [fs heap stdout] in *.
    exists c2, s2, (new1 ++ new2), (h1 ++ h2), (o1 ++ o2).
    rewrite !(assoc_L (++)). split; [exact Hloop|]. split.
    + apply Forall_app. split.
      * destruct Hnew1 as [->|(rows & Hrows & -> & Hnone)]; [done|].
        apply Forall_singleton. exists p, rows. split; [by left | done].
      * eapply Forall_impl; [exact Hnew2|].
        intros e (src & rows & Hsrc & Hrows & -> & Hnone).
        exists src, rows. split; [by right|].
        rewrite deref_app_l in Hrows by done.
        rewrite converted_rows_app in Hrows by (apply Hl; by right).
        split; [done|]. split; [done|].
        by eapply lookup_path_app_None.
    + intros q [->|Hq]%elem_of_cons.
      * apply settled_mono; [|by eapply output_of_only_files|done].
        apply lookup_path_app_Some, Hl. by left.
      * by apply Hall.
Qed.

(** A settled file is passed over: the file system and the count of
    converted files stay as they are. *)
Lemma main_body_settled r p c s st :
  settled (fs st) p →
  ∃ s' h' o',
    main_body r p (c, s) st =
      (Ok (c, s'), mkState (fs st) (heap st ++ h') (stdout st ++ o')) ∧
    Forall quiet o'.
Proof.
  intros Hsettled.
  destruct (already_converted (fs st) p) eqn:Hcls.
  { exists (s + 1), [], [Main_processing (name p); Main_skip_converted (name p)].
    rewrite app_nil_r. split; [by apply main_body_skip|].
    by repeat constructor. }
  destruct (path_exists (converted_path p) (fs st)) eqn:Hex.
  { exists (s + 1), [],
      [Main_processing (name p); Main_skip_exists (name p) (name (converted_path p))].
    rewrite app_nil_r. split; [by apply main_body_exists|].
    by repeat constructor. }
  rewrite main_body_convert by done.
  destruct (convert_cases (processing st p) p (Some (converted_path p)) (Some r))
    as [(t & col & Ht & Hcol & Hw & Hrun)|(h' & e & _ & Hquiet & Hrun)];
    rewrite Hrun; cbn [fs heap stdout processing output_path] in *.
  - exfalso. destruct Hsettled as [H|[H|[H|H]]]; try congruence.
    unfold read_error in H. rewrite Ht in H. by destruct H.
  - exists s, h', (Main_processing (name p) :: e).
    rewrite <- !app_assoc. split; [reflexivity|]. by constructor.
Qed.

Lemma main_loop_settled r l c s st :
  (∀ p, p ∈ l → settled (fs st) p) →
  ∃ s' h' o',
    for_each l (main_body r) (c, s) st =
      (Ok (c, s'), mkState (fs st) (heap st ++ h') (stdout st ++ o')) ∧
    Forall quiet o'.
Proof.
  revert s st. induction l as [|p l IH]; intros s st Hl.
  - exists s, [], []. rewrite !app_nil_r. by destruct st.
  - destruct (main_body_settled r p c s st) as (s1 & h1 & o1 & Hstep & Hq1).
    { apply Hl. by left. }
    cbn [for_each]. rewrite (run_bind_ok _ _ _ _ _ Hstep).
    set (st1 := mkState _ _ _).
    destruct (IH s1 st1) as (s2 & h2 & o2 & Hloop & Hq2).
    { intros q Hq. apply Hl. by right. }
    unfold st1 in *. cbn [fs heap stdout] in *.
    exists s2, (h1 ++ h2), (o1 ++ o2). rewrite !(assoc_L (++)).
    split; [exact Hloop|]. by apply Forall_app.
Qed.

(** ** The batch driver *)

(** [main] up to its loop: the pool is built as a new object, and the loop
    runs over the CSV files of the input folder. *)
Lemma main_unfold st :
  path_exists ["input"] (fs st) = true →
  ∃ h1,
    let l := glob_csv ["input"] (fs st) in
    let r := length (heap st) in
    let st_m := mkState (fs st) (heap st ++ [merge_pool (fs st)] ++ h1)
                        (stdout st ++ merge_messages (fs st)) in
    main st =
      if bool_decide (l = []) then
        (Ok (), mkState (fs st_m) (heap st_m) (stdout st_m ++ [Main_no_csv_files]))
      else
        match for_each l (main_body r) (0, 0)
                (mkState (fs st_m) (heap st_m)
                         (stdout st_m ++ [Main_found (length l)])) with
        | (Ok counts, st') =>
            (Ok (), mkState (fs st') (heap st')
                            (stdout st' ++ summary counts (deref (heap st') r)))
        | (Raise e, st') => (Raise e, st')
        end.
Proof.
  intros Hex. destruct (get_merge_ids_spec st) as [h1 Hmerge].
  exists h1. cbv zeta. unfold main.
  run_step exists_.
  rewrite Hex. cbn [negb]. cbv iota.
  rewrite (run_bind_ok _ _ _ _ _ Hmerge).
  run_step glob.
  cbn [fs heap stdout].
  case_bool_decide as Hnil; [reflexivity|].
  run_step print.
  cbn [fs heap stdout]. rewrite run_bind.
  destruct (for_each _ _ _ _) as [[counts|e] st']; [|done].
  unfold mbind, M_bind, bind, print, set_truthy, mret, M_ret, ret, summary.
  cbn [fs heap stdout].
  case_bool_decide; cbn [negb fs heap stdout]; by rewrite <- !app_assoc.
Qed.

Lemma quiet_merge_messages files : Forall quiet (merge_messages files).
Proof.
  unfold merge_messages. case_bool_decide; [done|].
  apply Forall_app. split; [by apply Forall_singleton|].
  apply Forall_app. split.
  - apply Forall_fmap, Forall_true. intros p. unfold compose, merge_file_message.
    destruct (lookup_path p files) as [[|[|t]]|]; try done.
    by destruct (merge_id_column (parse_table t)).
  - case_bool_decide; [done | by apply Forall_singleton].
Qed.

(** A run of [main]: it never raises, it only adds output files of the CSV
    files of the input folder, each of which is settled afterwards, and
    the set objects that exist before the run keep their contents. *)
Lemma main_run st :
  ∃ new h' o',
    main st = (Ok (), mkState (fs st ++ new) (heap st ++ h') (stdout st ++ o')) ∧
    Forall (output_of (glob_csv ["input"] (fs st)) (fs st) (merge_pool (fs st))) new ∧
    (∀ p, p ∈ glob_csv ["input"] (fs st) → settled (fs st ++ new) p).
Proof.
  destruct (path_exists ["input"] (fs st)) eqn:Hex.
  2:{ exists [], [], [Main_no_input_folder; Main_please_create].
      rewrite !app_nil_r. split; [by apply main_no_input|]. split; [done|].
      rewrite glob_csv_not_exists by done. by intros p ?%elem_of_nil. }
  destruct (main_unfold st Hex) as [h1 Hmain]. cbv zeta in Hmain.
  rewrite Hmain. cbn [fs heap stdout]. clear Hmain.
  case_bool_decide as Hnil.
  { eexists [], _, _. rewrite app_nil_r, <- !app_assoc.
    split; [reflexivity|]. split; [done|].
    rewrite Hnil. by intros p ?%elem_of_nil. }
  set (st_m := mkState _ _ _).
  destruct (main_loop_spec (length (heap st)) (glob_csv ["input"] (fs st)) 0 0 st_m)
    as (c' & s' & new & h' & o' & Hloop & Hnew & Hall).
  { unfold st_m. cbn [heap]. rewrite length_app. simpl. lia. }
  { intros p Hp. unfold st_m, glob_csv in *. cbn [fs].
    destruct (is_dir _ _); [|by apply elem_of_nil in Hp].
    apply list_elem_of_filter in Hp as [[Hne _] Hp].
    apply not_eq_None_Some. intros Hn%lookup_path_None; done. }
  rewrite Hloop. unfold st_m in *. cbn [fs heap stdout] in *.
  rewrite deref_middle in Hnew.
  eexists new, _, _. rewrite <- !app_assoc. split; [reflexivity|]. done.
Qed.

(** A run of [main] when every CSV file of the input folder is settled:
    the file system stays as it is and no conversion is reported. *)
Lemma main_rerun st :
  (∀ p, p ∈ glob_csv ["input"] (fs st) → settled (fs st) p) →
  ∃ h' o',
    main st = (Ok (), mkState (fs st) (heap st ++ h') (stdout st ++ o')) ∧
    Forall quiet o'.
Proof.
  intros Hall. destruct (path_exists ["input"] (fs st)) eqn:Hex.
  2:{ exists [], [Main_no_input_folder; Main_please_create].
      rewrite app_nil_r. split; [by apply main_no_input|].
      by repeat constructor. }
  destruct (main_unfold st Hex) as [h1 Hmain]. cbv zeta in Hmain.
  rewrite Hmain. cbn [fs heap stdout]. clear Hmain.
  case_bool_decide as Hnil.
  { eexists _, _. rewrite <- !app_assoc. split; [reflexivity|].
    apply Forall_app. split; [apply quiet_merge_messages | by repeat constructor]. }
  set (st_m := mkState _ _ _).
  destruct (main_loop_settled (length (heap st)) (glob_csv ["input"] (fs st)) 0 0 st_m)
    as (s' & h' & o' & Hloop & Hquiet); [done|].
  rewrite Hloop. unfold st_m in *. cbn [fs heap stdout] in *.
  eexists _, _. rewrite <- !app_assoc. split; [reflexivity|].
  apply Forall_app. split; [apply quiet_merge_messages|].
  apply Forall_cons. split; [done|].
  apply Forall_app. split; [done|]. unfold summary.
  apply Forall_app. split; [by repeat constructor|].
  case_bool_decide; by repeat constructor.
Qed.

Lemma elem_of_glob_csv p folder files :
  p ∈ glob_csv folder files ↔
  is_dir folder files = true ∧ p ∈ files.*1 ∧
  p ≠ [] ∧ parent p = folder ∧ endswith (name p) ".csv" = true.
Proof.
  unfold glob_csv. destruct (is_dir folder files).
  - rewrite list_elem_of_filter. tauto.
  - split; [by intros ?%elem_of_nil | by intros [? _]].
Qed.

(** After a run, every CSV file of the input folder is settled: the files
    that were there before the run by the run itself, its output files by
    their name. *)
Lemma settled_after_run files B new :
  Forall (output_of (glob_csv ["input"] files) files B) new →
  (∀ p, p ∈ glob_csv ["input"] files → settled (files ++ new) p) →
  ∀ p, p ∈ glob_csv ["input"] (files ++ new) → settled (files ++ new) p.
Proof.
  intros Hnew Hold p (Hdir & Hin & Hp & Hparent & Hcsv)%elem_of_glob_csv.
  rewrite fmap_app, elem_of_app in Hin. destruct Hin as [Hin|Hin].
  - apply Hold. apply elem_of_glob_csv. repeat split; try done.
    destruct (is_dir ["input"] files) eqn:Hd; [done|].
    rewrite (is_dir_app_false _ _ _ (output_of_only_files _ _ _ _ Hnew) Hd) in Hdir.
    done.
  - apply list_elem_of_fmap in Hin as ([q n] & -> & Hin). cbn [fst] in *.
    rewrite Forall_forall in Hnew.
    destruct (Hnew _ Hin) as (src & rows & Hsrc & _ & [= -> ->] & _).
    apply elem_of_glob_csv in Hsrc as (_ & _ & _ & _ & Hsrccsv).
    left. unfold already_converted.
    by rewrite (converted_path_marked src Hsrccsv Hcsv).
Qed.

(** C4: the batch driver passes over a file to convert whose output file
    exists, counting it as skipped; and a second run on the file system
    the first run has left converts no file and leaves the file system as
    it is. *)
Theorem C4_idempotent :
  (∀ st r p c s,
      is_already_converted p st = (Ok false, st) →
      path_exists (converted_path p) (fs st) = true →
      main_body r p (c, s) st =
        (Ok (c, s + 1),
         mkState (fs st) (heap st)
                 (stdout st ++
                    [Main_processing (name p);
                     Main_skip_exists (name p) (name (converted_path p))]))) ∧
  (∀ files, ∃ st1 st2,
      main (initial files) = (Ok (), st1) ∧
      main (initial (fs st1)) = (Ok (), st2) ∧
      fs st2 = fs st1 ∧
      (∀ n i o, Convert_success n i o ∉ stdout st2) ∧
      (∀ n, Main_converted n ∈ stdout st2 → n = 0)).
Proof.
  split.
  - intros st r p c s Hcls Hex. rewrite is_already_converted_run in Hcls.
    apply main_body_exists; [congruence | done].
  - intros files.
    destruct (main_run (initial files)) as (new & h1 & o1 & Hrun1 & Hnew & Hold).
    cbn [initial fs heap stdout] in *.
    destruct (main_rerun (initial (files ++ new))) as (h2 & o2 & Hrun2 & Hquiet).
    { by eapply settled_after_run. }
    cbn [initial fs heap stdout] in *.
    eexists _, _. split; [exact Hrun1|]. cbn [fs].
    split; [exact Hrun2|]. cbn [fs stdout]. split; [done|].
    rewrite Forall_forall in Hquiet. split.
    + intros n i o Hin. by apply (Hquiet _ Hin).
    + intros n Hin. by apply (Hquiet _ Hin).
Qed.

(** ** What a run leaves untouched *)

(** The converter only adds a set object to the store. *)
Lemma convert_heap st input_file output_file merge_ids :
  ∃ result st' h',
    convert_csv_with_merge input_file output_file merge_ids st = (Ok result, st') ∧
    heap st' = heap st ++ h'.
Proof.
  destruct (convert_cases st input_file output_file merge_ids)
    as [(t & col & _ & _ & _ & Hrun)|(h' & e & _ & _ & Hrun)];
    rewrite Hrun; eexists _, _, _; (split; [reflexivity|]); reflexivity.
Qed.

(** The loop of [main] only adds set objects to the store. *)
Lemma main_loop_heap r l counts st :
  ∃ counts' st' h',
    for_each l (main_body r) counts st = (Ok counts', st') ∧
    heap st' = heap st ++ h'.
Proof.
  revert counts st. induction l as [|p l IH]; intros [c s] st.
  - exists (c, s), st, []. by rewrite app_nil_r.
  - destruct (main_body_step r p c s st)
      as (c1 & s1 & new1 & h1 & o1 & Hstep & _ & _).
    cbn [for_each]. rewrite (run_bind_ok _ _ _ _ _ Hstep).
    set (st1 := mkState _ _ _).
    destruct (IH (c1, s1) st1) as (counts' & st' & h2 & Hloop & Hheap).
    exists counts', st', (h1 ++ h2). split; [exact Hloop|].
    rewrite Hheap. unfold st1. cbn [heap]. by rewrite app_assoc.
Qed.

(** C9: a run of the batch driver leaves every entry of the file system as
    it was, and the entries it adds are output files, named with the
    "_converted" marker, of CSV files of the input folder; the converter
    and the loop of the driver leave every set object that exists before
    them, the pool among them, with the contents it had. *)
Theorem C9_nothing_modified :
  (∀ files, ∃ st',
      main (initial files) = (Ok (), st') ∧
      (∀ p n, lookup_path p files = Some n → lookup_path p (fs st') = Some n) ∧
      (∀ p n, lookup_path p files = None → lookup_path p (fs st') = Some n →
              ∃ src rows,
                src ∈ glob_csv ["input"] files ∧ p = converted_path src ∧
                name p = stem src +:+ "_converted" +:+ suffix src ∧
                n = id_file rows)) ∧
  (∀ st input_file output_file merge_ids, ∃ result st',
      convert_csv_with_merge input_file output_file merge_ids st = (Ok result, st') ∧
      ∀ r, r < length (heap st) → heap st' !! r = heap st !! r) ∧
  (∀ st r l counts, ∃ counts' st',
      for_each l (main_body r) counts st = (Ok counts', st') ∧
      ∀ r', r' < length (heap st) → heap st' !! r' = heap st !! r').
Proof.
  split; [|split].
  - intros files.
    destruct (main_run (initial files)) as (new & h1 & o1 & Hrun & Hnew & _).
    cbn [initial fs heap stdout] in *.
    eexists. split; [exact Hrun|]. cbn [fs]. split.
    + intros p n Hp. by rewrite lookup_path_app, Hp.
    + intros p n Hp. rewrite lookup_path_app, Hp.
      intros Hin%lookup_path_Some_elem; [|by eapply lookup_path_None_not_nil].
      rewrite Forall_forall in Hnew.
      destruct (Hnew _ Hin) as (src & rows & Hsrc & _ & [= -> ->] & _).
      exists src, rows. repeat split; try done.
      unfold converted_path. by rewrite name_joinpath.
  - intros st input_file output_file merge_ids.
    destruct (convert_heap st input_file output_file merge_ids)
      as (result & st' & h' & Hrun & Hheap).
    exists result, st'. split; [done|]. intros r Hr.
    by rewrite Hheap, lookup_app_l.
  - intros st r l counts.
    destruct (main_loop_heap r l counts st) as (counts' & st' & h' & Hrun & Hheap).
    exists counts', st'. split; [done|]. intros r' Hr.
    by rewrite Hheap, lookup_app_l.
Qed.

(** ** The files a run creates *)

Lemma converted_rows_Some files src B rows :
  converted_rows files src B = Some rows →
  ∃ t col,
    lookup_path src files = Some (File (CsvText t)) ∧
    getitem (parse_table t) "ID Subjektu" = Some col ∧
    rows = sorted (elements (column_ids col ∪ B)).
Proof.
  unfold converted_rows.
  destruct (lookup_path src files) as [[|[|t]]|]; try done.
  destruct (getitem (parse_table t) "ID Subjektu") as [col|] eqn:Hcol; [|done].
  intros [= <-]. by exists t, col.
Qed.

(** X17: every file a run of the script creates is the output file of a CSV
    file of the input folder that has the column "ID Subjektu"; its single
    column "ID" holds the identifiers of that file and of the pool of the
    merge folder, each once, none empty, in ascending order. *)
Theorem run_outputs files :
  ∃ st',
    main (initial files) = (Ok (), st') ∧
    ∀ p n,
      lookup_path p files = None → lookup_path p (fs st') = Some n →
      ∃ src t col rows,
        src ∈ glob_csv ["input"] files ∧ p = converted_path src ∧
        lookup_path src files = Some (File (CsvText t)) ∧
        getitem (parse_table t) "ID Subjektu" = Some col ∧
        n = File (CsvText [("ID", rows)]) ∧
        NoDup rows ∧ StronglySorted String.le rows ∧ ("" ∉ rows) ∧
        (∀ x, x ∈ rows ↔ Some x ∈ col ∨ x ∈ merge_pool files).
Proof.
  destruct (main_run (initial files)) as (new & h1 & o1 & Hrun & Hnew & _).
  cbn [initial fs heap stdout] in *.
  eexists. split; [exact Hrun|]. cbn [fs].
  intros p n Hp. rewrite lookup_path_app, Hp.
  intros Hin%lookup_path_Some_elem; [|by eapply lookup_path_None_not_nil].
  rewrite Forall_forall in Hnew.
  destruct (Hnew _ Hin) as (src & rows & Hsrc & Hrows & [= -> ->] & _).
  apply converted_rows_Some in Hrows as (t & col & Ht & Hcol & ->).
  exists src, t, col, (sorted (elements (column_ids col ∪ merge_pool files))).
  do 5 (split; [done|]). split; [|split; [|split]].
  - apply NoDup_sorted, NoDup_elements.
  - apply sorted_StronglySorted.
  - rewrite elem_of_sorted, elem_of_elements, elem_of_union, elem_of_column_ids.
    intros [H|H].
    + by eapply getitem_parse_table_nonempty.
    + by eapply merge_pool_nonempty.
  - intros x.
    by rewrite elem_of_sorted, elem_of_elements, elem_of_union, elem_of_column_ids.
Qed.

End properties.

(** ** The properties at sample inputs *)

(** The theorems above hold for every parser; here they are applied to the
    sample files, read with the parser of text. *)

Section samples.
#[local] Existing Instance text_parser.


Lemma C2_sorted_deterministic_witness :
  lookup_path ["input"; "n_converted.csv"]
    (fs (convert_csv_with_merge ["input"; "n.csv"] None None
           (initial numeric_files)).2) =
    Some (File (CsvText [("ID", ["10"; "2"])])) ∧
  ∃ rows,
    lookup_path ["input"; "test_input_converted.csv"]
      (fs (convert_csv_with_merge ["input"; "test_input.csv"] None (Some 0)
             test_state).2) = Some (File (CsvText [("ID", rows)])) ∧
    lookup_path ["out.csv"]
      (fs (convert_csv_with_merge ["input"; "test_input.csv"] (Some ["out.csv"])
             (Some 1) test_state_reordered).2) =
      Some (File (CsvText [("ID", rows)])).
Proof.
  destruct C2_sorted_deterministic as (_ & Hnumeric & H & _). split.
  { apply (Hnumeric (initial numeric_files) ["input"; "n.csv"] None None
             [("ID Subjektu", ["2"; "10"; "2"])] [Some "2"; Some "10"; Some "2"]).
    - reflexivity.
    - reflexivity.
    - intros x. rewrite !list_elem_of_In. cbn [pool In].
      rewrite elem_of_empty. split; [intros [[H1|[H1|[H1|[]]]]|[]] | intros [->| ->]].
      + left. by injection H1.
      + right. by injection H1.
      + left. by injection H1.
      + left. by left.
      + left. right. by left.
    - by vm_compute. }
  apply (H test_state test_state_reordered
           ["input"; "test_input.csv"] ["input"; "test_input.csv"]
           None (Some ["out.csv"]) (Some 0) (Some 1)
           test_input test_input_reordered
           [Some "TEST-001"; Some "TEST-002"; Some "MERGE-001"; None]
           [None; Some "MERGE-001"; Some "TEST-002"; Some "TEST-001"]).
  - reflexivity.
  - reflexivity.
  - reflexivity.
  - reflexivity.
  - intros x. rewrite !list_elem_of_In. simpl. tauto.
  - by vm_compute.
  - by vm_compute.
  - by vm_compute.
Defined.

Lemma C3_classification_witness :
  is_already_converted ["input"; "test_input.csv"] test_state =
    (Ok false, test_state) ∧
  is_already_converted ["input"; "other.csv"] (initial no_id_files) =
    (Ok true, initial no_id_files) ∧
  is_already_converted ["input"; "other_converted.csv"] (initial no_id_files) =
    (Ok true, initial no_id_files).
Proof.
  destruct C3_classification as (_ & Hname & _ & Hconvertible & Hineligible & _).
  split; [|split].
  - apply (Hconvertible test_state ["input"; "test_input.csv"] test_input).
    + reflexivity.
    + reflexivity.
    + compute_done.
  - apply (Hineligible (initial no_id_files) ["input"; "other.csv"]
             [("Name", ["a"]); ("Date", ["b"])]).
    + reflexivity.
    + simpl. lia.
    + compute_done.
  - apply (Hname (initial no_id_files) ["input"; "other_converted.csv"]).
    reflexivity.
Defined.

Lemma C4_idempotent_witness :
  main_body 0 ["input"; "other.csv"] (0, 0)
    (initial [(["input"; "other.csv"], File (CsvText [("ID Subjektu", ["a"])]));
              (["input"; "other_converted.csv"], File (CsvText [("ID", ["kept"])]))]) =
  (Ok (0, 1),
   mkState [(["input"; "other.csv"], File (CsvText [("ID Subjektu", ["a"])]));
            (["input"; "other_converted.csv"], File (CsvText [("ID", ["kept"])]))]
           []
           [Main_processing "other.csv";
            Main_skip_exists "other.csv" "other_converted.csv"]).
Proof.
  destruct C4_idempotent as [Hskip _].
  apply (Hskip (initial [(["input"; "other.csv"], File (CsvText [("ID Subjektu", ["a"])]));
              (["input"; "other_converted.csv"], File (CsvText [("ID", ["kept"])]))])
           0 ["input"; "other.csv"] 0 0).
  - reflexivity.
  - reflexivity.
Defined.

Lemma C5_missing_column_witness :
  convert_csv_with_merge ["input"; "other.csv"] None None (initial no_id_files) =
    (Ok None,
     mkState no_id_files []
             [Convert_error
                (ValueError_column_not_found ["input"; "other.csv"]
                   ["Name"; "Date"])]).
Proof.
  refine (C5_missing_column (initial no_id_files) ["input"; "other.csv"] None None
            [("Name", ["a"]); ("Date", ["b"])] _ _).
  - reflexivity.
  - compute_done.
Defined.

(** C6, as stated, fails: a file that cannot be parsed is answered [False]
    by the classifier, the driver hands it to the converter and the skip
    counter stays as it was. *)
Lemma C6_unparseable_counterexample :
  endswith (stem ["input"; "bad.csv"]) "_converted" = false ∧
  read_csv ["input"; "bad.csv"] (initial unreadable_files) =
    (Raise (ParserError ["input"; "bad.csv"]), initial unreadable_files) ∧
  is_already_converted ["input"; "bad.csv"] (initial unreadable_files) =
    (Ok false, initial unreadable_files) ∧
  main_body 0 ["input"; "bad.csv"] (0, 0) (initial unreadable_files) =
    (Ok (0, 0),
     mkState unreadable_files []
             [Main_processing "bad.csv";
              Convert_error (ParserError ["input"; "bad.csv"])]).
Proof. repeat split; by vm_compute. Qed.

Lemma C6_unparseable_not_skipped_witness :
  is_already_converted ["input"; "bad.csv"] (initial unreadable_files) =
    (Ok false, initial unreadable_files) ∧
  main_body 0 ["input"; "bad.csv"] (3, 4) (initial unreadable_files) =
    (Ok (3, 4),
     mkState unreadable_files []
             [Main_processing "bad.csv";
              Convert_error (ParserError ["input"; "bad.csv"])]).
Proof.
  apply (C6_unparseable_not_skipped (initial unreadable_files)
           ["input"; "bad.csv"] (ParserError ["input"; "bad.csv"]) 0 3 4).
  - reflexivity.
  - reflexivity.
Defined.

(** C7, as stated, fails: without an input folder the script ends with
    exit status 0. *)
Lemma C7_exit_status_counterexample :
  path_exists ["input"] [] = false ∧
  script [] = (0, mkState [] [] [Main_no_input_folder; Main_please_create]).
Proof. split; by vm_compute. Qed.

Lemma C7_missing_input_folder_witness :
  main (initial [(["merge"], Directory)]) =
    (Ok (), mkState [(["merge"], Directory)] []
                    [Main_no_input_folder; Main_please_create]) ∧
  script [(["merge"], Directory)] =
    (0, mkState [(["merge"], Directory)] []
                [Main_no_input_folder; Main_please_create]).
Proof.
  apply (C7_missing_input_folder [(["merge"], Directory)]). reflexivity.
Defined.

Lemma C8_merge_pool_builder_witness :
  get_merge_ids (initial no_id_files) = (Ok 0, mkState no_id_files [∅] []) ∧
  get_merge_ids_body 0 ["merge"; "both.csv"] () (mkState merge_files [∅] []) =
    (Ok (),
     mkState merge_files [{["M-1"]}; {["M-1"]}] [Merge_file_ids "both.csv" 1]) ∧
  get_merge_ids_body 0 ["merge"; "subjects.csv"] () (mkState merge_files [∅] []) =
    (Ok (),
     mkState merge_files [{["M-2"; "M-1"]}; {["M-2"; "M-1"]}]
             [Merge_file_ids "subjects.csv" 2]) ∧
  get_merge_ids_body 0 ["merge"; "names.csv"] () (mkState merge_files [∅] []) =
    (Ok (), mkState merge_files [∅] [Merge_no_id_column "names.csv"]) ∧
  get_merge_ids_body 0 ["merge"; "bad.csv"] () (mkState merge_files [∅] []) =
    (Ok (),
     mkState merge_files [∅]
             [Merge_error_reading "bad.csv" (ParserError ["merge"; "bad.csv"])]) ∧
  ∃ r st',
    get_merge_ids (initial merge_files) = (Ok r, st') ∧ fs st' = merge_files ∧
    "M-2" ∈ deref (heap st') r ∧ "S-1" ∉ deref (heap st') r.
Proof.
  destruct C8_merge_pool_builder as (Hempty & _ & Hfile & Herror & Hpool).
  split; [|split; [|split; [|split; [|split]]]].
  - apply (Hempty (initial no_id_files)). left. reflexivity.
  - pose proof (Hfile 0 ["merge"; "both.csv"] (mkState merge_files [∅] [])
                  both_columns) as H.
    destruct H as (col & Hcol & Hrun); [simpl; lia | reflexivity |].
    injection Hcol as <-. rewrite Hrun. by vm_compute.
  - pose proof (Hfile 0 ["merge"; "subjects.csv"] (mkState merge_files [∅] [])
                  [("ID Subjektu", ["M-2"; "M-1"])]) as H.
    destruct H as (col & Hcol & Hrun); [simpl; lia | reflexivity |].
    injection Hcol as <-. rewrite Hrun. by vm_compute.
  - refine (Hfile 0 ["merge"; "names.csv"] (mkState merge_files [∅] [])
              [("Name", ["a"])] _ _); [simpl; lia | reflexivity].
  - apply (Herror 0 ["merge"; "bad.csv"] (mkState merge_files [∅] [])).
    reflexivity.
  - destruct (Hpool (initial merge_files)) as (r & st' & Hrun & Hfs & Hmem).
    exists r, st'. split; [exact Hrun|]. split; [exact Hfs|]. split.
    + apply Hmem.
      exists ["merge"; "subjects.csv"], [("ID Subjektu", ["M-2"; "M-1"])],
             "ID Subjektu", [Some "M-2"; Some "M-1"].
      split; [compute_done|]. split; [reflexivity|]. split; [reflexivity|].
      split; [reflexivity|]. apply list_elem_of_here.
    + intros (p & t & c & col & Hp & Ht & Hc & Hget & Hx)%Hmem.
      apply list_elem_of_In in Hp. vm_compute in Hp.
      destruct Hp as [<-|[<-|[<-|[<-|[]]]]]; vm_compute in Ht; simplify_eq;
        vm_compute in Hc; simplify_eq; vm_compute in Hget; simplify_eq;
        apply list_elem_of_In in Hx; simpl in Hx; intuition discriminate.
Defined.

Lemma C9_nothing_modified_witness :
  ∃ st',
    main (initial test_files) = (Ok (), st') ∧
    lookup_path ["input"; "test_input.csv"] (fs st') =
      Some (File (CsvText test_input)).
Proof.
  destruct C9_nothing_modified as (Hmain & _ & _).
  destruct (Hmain test_files) as (st' & Hrun & Hkeep & _).
  exists st'. split; [exact Hrun|].
  apply Hkeep. reflexivity.
Defined.

Lemma C10_empty_column_witness :
  ∃ st',
    convert_csv_with_merge ["input"; "blank.csv"] None None (initial blank_files) =
      (Ok (Some ["input"; "blank_converted.csv"]), st') ∧
    lookup_path ["input"; "blank_converted.csv"] (fs st') =
      Some (File (CsvText [("ID", [])])).
Proof.
  apply (C10_empty_column (initial blank_files) ["input"; "blank.csv"] None None
           [("ID Subjektu", [""; "NaN"]); ("Name", ["a"; "b"])] [None; None]).
  - reflexivity.
  - reflexivity.
  - intros c Hc. apply list_elem_of_In in Hc. simpl in Hc. intuition.
  - reflexivity.
  - reflexivity.
Defined.

End samples.

(** * Further properties of [main.py] and [run.py] *)

Section further.
Context {pandas : Parser}.

(** ** When the converter fails *)

Lemma to_csv_write_error df p st :
  writable p (fs st) = false →
  to_csv df p st = (Raise (write_error p (fs st)), st).
Proof.
  unfold writable, to_csv, write_error.
  destruct (lookup_path p (fs st)) as [[|c]|]; [done | done |].
  by intros ->.
Qed.

Lemma write_error_not_found p files : is_FileNotFoundError (write_error p files) = false.
Proof. unfold write_error. by destruct (lookup_path p files) as [[|c]|]. Qed.

Lemma convert_write_error st input_file output_file merge_ids t col :
  lookup_path input_file (fs st) = Some (File (CsvText t)) →
  getitem (parse_table t) "ID Subjektu" = Some col →
  let all_ids := column_ids col ∪ pool st merge_ids in
  let out := output_path input_file output_file in
  writable out (fs st) = false →
  convert_csv_with_merge input_file output_file merge_ids st =
    (Ok None,
     mkState (fs st) (heap st ++ [all_ids])
             (stdout st ++ added_messages (column_ids col) all_ids ++
                [Convert_error (write_error out (fs st))])).
Proof.
  intros Hin Hcol all_ids out Hw.
  assert (Htry : convert_try input_file output_file merge_ids st =
    (Raise (write_error out (fs st)),
     mkState (fs st) (heap st ++ [all_ids])
             (stdout st ++ added_messages (column_ids col) all_ids))).
  { unfold convert_try.
    rewrite (run_bind_ok _ _ _ _ _ (read_csv_table _ _ _ Hin)).
    assert (Hmem : "ID Subjektu" ∈ columns (parse_table t)).
    { apply getitem_Some_columns. eauto. }
    rewrite bool_decide_true by done. simpl negb. cbv iota.
    rewrite run_bind. unfold mret, M_ret, ret at 1.
    unfold getitem_. rewrite Hcol.
    rewrite run_ret_bind, run_bind. unfold new_set at 1. cbv beta iota.
    destruct st as [files h o]. simpl fs in *. simpl heap. simpl stdout.
    rewrite convert_merge_step.
    fold (column_ids col). fold all_ids.
    rewrite run_bind. unfold set_contents at 1. cbv beta iota. simpl heap.
    rewrite deref_snoc. fold (output_path input_file output_file). fold out.
    set (st2 := mkState files _ _).
    by rewrite (run_bind_raise _ _ _ _ _
                  (to_csv_write_error _ out st2 Hw)). }
  unfold convert_csv_with_merge.
  rewrite (convert_handler _ _ _ _ _ Htry). cbn [fs heap stdout].
  unfold error_message. rewrite write_error_not_found.
  by rewrite <- app_assoc.
Qed.

Lemma added_messages_no_error A B :
  Forall (λ m, is_error_line m = false) (added_messages A B).
Proof.
  unfold added_messages. destruct (0 <? _); [|done]. by apply Forall_singleton.
Qed.

(** X1: the converter never raises.  It returns [None] exactly when the
    input cannot be read, has no column "ID Subjektu", or the output cannot
    be written; the file system is then as before and the last line
    printed is the error line for the exception that stopped it.
    Otherwise it returns the output path, where a file then exists. *)
Theorem convert_outcome st input_file output_file merge_ids :
  match convert_error input_file (output_path input_file output_file) (fs st) with
  | None =>
      ∃ st',
        convert_csv_with_merge input_file output_file merge_ids st =
          (Ok (Some (output_path input_file output_file)), st') ∧
        ∃ rows, lookup_path (output_path input_file output_file) (fs st') =
                  Some (id_file rows)
  | Some e =>
      ∃ h' o',
        convert_csv_with_merge input_file output_file merge_ids st =
          (Ok None,
           mkState (fs st) (heap st ++ h')
                   (stdout st ++ o' ++ [error_message input_file e])) ∧
        Forall (λ m, is_error_line m = false) o'
  end.
Proof.
  unfold convert_error.
  destruct (lookup_path input_file (fs st)) as [[|[|t]]|] eqn:Hin;
    try (unfold read_error; rewrite Hin; exists [], []; (split; [|done]);
         rewrite (convert_read_error st input_file output_file merge_ids _
                    ltac:(unfold read_error; rewrite Hin; reflexivity));
         by rewrite app_nil_r).
  case_bool_decide as Hcol.
  - apply getitem_Some_columns in Hcol as [col Hcol].
    destruct (writable _ _) eqn:Hw.
    + pose proof (writable_not_nil _ _ Hw) as Hout.
      eexists. split; [by eapply convert_ok|]. cbn [fs].
      eexists. rewrite lookup_write_file, decide_True by done. reflexivity.
    + eexists _, _. split.
      { rewrite (convert_write_error _ _ _ merge_ids _ _ Hin Hcol Hw).
        unfold error_message. rewrite write_error_not_found. reflexivity. }
      apply added_messages_no_error.
  - exists [], []. split; [|done].
    apply getitem_None_columns in Hcol. unfold convert_csv_with_merge.
    rewrite (convert_handler _ _ _ _ _
               (convert_try_no_column _ _ output_file merge_ids _ Hin Hcol)).
    by rewrite app_nil_r.
Qed.

(** ** What the converter writes and prints *)

Lemma replace_path_keys p n (files : FileSystem) :
  (replace_path p n files).*1 = files.*1.
Proof.
  induction files as [|[q m] files IH]; [done|]. cbn [replace_path].
  destruct (decide (q = p)); rewrite !fmap_cons; cbn [fst]; [done|].
  by rewrite IH.
Qed.

(** X2: called with an output path at which a file exists, the converter
    replaces the text of that file: it has no guard of its own against
    overwriting.  Every other entry, and the order of the entries, stay as
    they are. *)
Theorem convert_overwrites st input_file out merge_ids t col c :
  lookup_path input_file (fs st) = Some (File (CsvText t)) →
  getitem (parse_table t) "ID Subjektu" = Some col →
  lookup_path out (fs st) = Some (File c) →
  ∃ st',
    convert_csv_with_merge input_file (Some out) merge_ids st =
      (Ok (Some out), st') ∧
    lookup_path out (fs st') =
      Some (id_file (sorted (elements (column_ids col ∪ pool st merge_ids)))) ∧
    (∀ q, q ≠ out → lookup_path q (fs st') = lookup_path q (fs st)) ∧
    (fs st').*1 = (fs st).*1.
Proof.
  intros Hin Hcol Hout.
  assert (Hw : writable (output_path input_file (Some out)) (fs st) = true).
  { unfold writable, output_path. by rewrite Hout. }
  pose proof (writable_not_nil _ _ Hw) as Hnil. cbn [output_path] in Hnil.
  eexists. split; [exact (convert_ok _ _ _ merge_ids _ _ Hin Hcol Hw)|].
  cbn [fs output_path]. split; [|split].
  - by rewrite lookup_write_file, decide_True by done.
  - intros q Hq. by rewrite lookup_write_file, decide_False by done.
  - unfold write_file. rewrite Hout. apply replace_path_keys.
Qed.

Lemma size_union_minus (A B : gset string) :
  size (A ∪ B) - size A = size (B ∖ A).
Proof. rewrite size_union_alt. lia. Qed.

Lemma size_difference_0 (A B : gset string) : size (B ∖ A) = 0 ↔ B ⊆ A.
Proof.
  rewrite size_empty_iff. split.
  - intros H x Hx. destruct (decide (x ∈ A)); [done|].
    exfalso. apply (not_elem_of_empty (C:=gset string) x). rewrite <- H.
    by apply elem_of_difference.
  - intros H. apply set_equiv. intros x. rewrite elem_of_difference.
    split; [intros [Hx Hn]; by apply H in Hx | by intros ?%not_elem_of_empty].
Qed.

(** X3: on success the converter prints the line "Added n new IDs" exactly
    when the pool holds an identifier that the input does not, with [n] the
    number of such identifiers, and then the success line with the number
    of rows it has written. *)
Theorem convert_report st input_file output_file merge_ids t col :
  lookup_path input_file (fs st) = Some (File (CsvText t)) →
  getitem (parse_table t) "ID Subjektu" = Some col →
  writable (output_path input_file output_file) (fs st) = true →
  ∃ st' rows,
    convert_csv_with_merge input_file output_file merge_ids st =
      (Ok (Some (output_path input_file output_file)), st') ∧
    lookup_path (output_path input_file output_file) (fs st') = Some (id_file rows) ∧
    stdout st' =
      stdout st ++
      (if bool_decide (pool st merge_ids ⊆ column_ids col) then []
       else [Convert_added (size (pool st merge_ids ∖ column_ids col))]) ++
      [Convert_success (length rows) input_file (output_path input_file output_file)].
Proof.
  intros Hin Hcol Hw.
  pose proof (writable_not_nil _ _ Hw) as Hnil.
  eexists _, _. split; [exact (convert_ok _ _ _ merge_ids _ _ Hin Hcol Hw)|].
  cbn [fs stdout]. split.
  { rewrite lookup_write_file, decide_True by done. reflexivity. }
  rewrite length_sorted. do 2 f_equal.
  unfold added_messages. rewrite size_union_minus.
  case_bool_decide as Hsub.
  - apply size_difference_0 in Hsub. by rewrite Hsub.
  - destruct (size (pool st merge_ids ∖ column_ids col)) as [|n] eqn:Hn.
    + by apply size_difference_0 in Hn.
    + done.
Qed.

(** X4: the outcome of the converter depends on the pool through its
    contents only: two pools with the same identifiers, and so an empty
    pool and no pool, give the same result, files, store and output. *)
Theorem convert_pool_contents st input_file output_file m1 m2 :
  pool st m1 = pool st m2 →
  convert_csv_with_merge input_file output_file m1 st =
  convert_csv_with_merge input_file output_file m2 st.
Proof.
  intros Hpool.
  destruct (read_error input_file (fs st)) as [e|] eqn:Herr.
  { by rewrite !(convert_read_error _ _ _ _ e Herr). }
  apply read_error_None in Herr as [t Ht].
  destruct (getitem (parse_table t) "ID Subjektu") as [col|] eqn:Hcol.
  - destruct (writable (output_path input_file output_file) (fs st)) eqn:Hw.
    + rewrite (convert_ok _ _ _ m1 _ _ Ht Hcol Hw).
      rewrite (convert_ok _ _ _ m2 _ _ Ht Hcol Hw).
      by rewrite Hpool.
    + rewrite (convert_write_error _ _ _ m1 _ _ Ht Hcol Hw).
      rewrite (convert_write_error _ _ _ m2 _ _ Ht Hcol Hw).
      by rewrite Hpool.
  - unfold convert_csv_with_merge.
    by rewrite !(convert_handler _ _ _ _ _
                   (convert_try_no_column _ _ output_file _ _ Ht Hcol)).
Qed.

(** ** The classifier, in full *)

(** X5: the classifier only reads: it never raises and leaves the state
    as it is.  It answers [False], so that the driver goes on to convert
    the file, exactly when the stem of the name does not end in
    "_converted" and the file either cannot be read or has a column
    "ID Subjektu"; the number of columns plays no part. *)
Theorem is_already_converted_false_iff p st :
  ∃ b,
    is_already_converted p st = (Ok b, st) ∧
    (b = false ↔
     endswith (stem p) "_converted" = false ∧
     match lookup_path p (fs st) with
     | Some (File (CsvText t)) => "ID Subjektu" ∈ columns (parse_table t)
     | _ => True
     end).
Proof.
  exists (already_converted (fs st) p). split; [apply is_already_converted_run|].
  unfold already_converted, header_converted.
  destruct (endswith (stem p) "_converted").
  { split; [done | by intros [? ?]]. }
  destruct (lookup_path p (fs st)) as [[|[|t]]|]; try done.
  destruct (_ && _) eqn:Hone.
  - split; [done|]. intros [_ Hcol].
    apply andb_true_iff in Hone as [Hlen Hid].
    apply Nat.eqb_eq in Hlen. apply bool_decide_eq_true in Hid.
    destruct (columns (parse_table t)) as [|c0 [|c1 cols]]; simplify_eq/=.
    by apply list_elem_of_singleton in Hcol.
  - destruct (decide ("ID Subjektu" ∈ columns (parse_table t))) as [Hc|Hc].
    + rewrite (bool_decide_true _ Hc). by split.
    + rewrite (bool_decide_false _ Hc). split; [done | by intros [_ ?]].
Qed.

(** ** Names of output files, in general *)

Lemma append_cancel_r a b t : a +:+ t = b +:+ t → a = b.
Proof.
  intros H.
  assert (Hlen : String.length a = String.length b).
  { apply (f_equal String.length) in H. rewrite !length_append in H. lia. }
  revert b H Hlen. induction a as [|x a IH]; intros [|y b] H Hlen;
    try done.
  rewrite !append_cons in H. injection H as -> H.
  f_equal. apply IH; [done|]. simpl in Hlen. lia.
Qed.

Lemma path_split p : p ≠ [] → p = joinpath (parent p) (name p).
Proof.
  intros Hp. unfold joinpath, parent, name. by apply app_removelast_last.
Qed.

Lemma stem_suffix_ext p a ext :
  name p = a +:+ String "."%char ext →
  a ≠ "" → ext ≠ "" → rfind "."%char ext = None →
  stem p = a ∧ suffix p = String "."%char ext.
Proof.
  intros Hname Ha Hext Hdot. unfold stem, suffix. rewrite Hname.
  rewrite (suffix_index_ext a ext) by done. cbv zeta. split.
  - apply substring_prefix.
  - rewrite length_append, Nat.add_comm, Nat.add_sub. apply substring_suffix.
Qed.

(** X6: the output file of [a.ext], for a part [a] that is not empty and
    an extension [ext] that is not empty and has no dot, is
    [a_converted.ext] in the same folder; a name without a dot gets
    "_converted" at its end. *)
Theorem converted_path_name p :
  (∀ a ext,
      name p = a +:+ String "."%char ext →
      a ≠ "" → ext ≠ "" → rfind "."%char ext = None →
      converted_path p =
        joinpath (parent p) (a +:+ "_converted" +:+ String "."%char ext)) ∧
  (rfind "."%char (name p) = None →
   converted_path p = joinpath (parent p) (name p +:+ "_converted")).
Proof.
  split.
  - intros a ext Hname Ha Hext Hdot. unfold converted_path.
    by destruct (stem_suffix_ext p a ext Hname Ha Hext Hdot) as [-> ->].
  - intros Hdot. unfold converted_path, stem, suffix, suffix_index.
    by rewrite Hdot.
Qed.

Lemma converted_name_csv p a :
  name p = a +:+ ".csv" →
  name (converted_path p) =
    if decide (a = "") then ".csv_converted" else a +:+ "_converted" +:+ ".csv".
Proof.
  intros Hname. destruct (decide (a = "")) as [->|Ha].
  - unfold converted_path, stem, suffix. rewrite name_joinpath, Hname.
    by vm_compute.
  - unfold converted_path.
    destruct (stem_suffix_ext p a "csv" Hname Ha) as [-> ->]; [done..|].
    apply name_joinpath.
Qed.

(** Output paths that are equal come from files of the same folder with
    the same name. *)
Lemma converted_path_eq_inv p1 p2 :
  endswith (name p1) ".csv" = true → endswith (name p2) ".csv" = true →
  converted_path p1 = converted_path p2 →
  parent p1 = parent p2 ∧ name p1 = name p2.
Proof.
  intros [a1 Ha1]%endswith_inv [a2 Ha2]%endswith_inv Heq. split.
  { apply (f_equal parent) in Heq. unfold converted_path in Heq.
    by rewrite !parent_joinpath in Heq. }
  assert (Hname : name (converted_path p1) = name (converted_path p2))
    by (by rewrite Heq).
  rewrite (converted_name_csv p1 a1 Ha1), (converted_name_csv p2 a2 Ha2) in Hname.
  rewrite Ha1, Ha2. f_equal.
  destruct (decide (a1 = "")) as [->|Hne1], (decide (a2 = "")) as [->|Hne2].
  - done.
  - exfalso. pose proof (endswith_app (a2 +:+ "_converted") ".csv") as He.
    rewrite append_assoc, <- Hname in He. by vm_compute in He.
  - exfalso. pose proof (endswith_app (a1 +:+ "_converted") ".csv") as He.
    rewrite append_assoc, Hname in He. by vm_compute in He.
  - rewrite <- !append_assoc in Hname.
    by apply append_cancel_r, append_cancel_r in Hname.
Qed.

(** X7: two CSV files with different paths have different output paths:
    no two files of a run are written to the same output file. *)
Theorem converted_path_inj p1 p2 :
  p1 ≠ [] → p2 ≠ [] →
  endswith (name p1) ".csv" = true → endswith (name p2) ".csv" = true →
  converted_path p1 = converted_path p2 → p1 = p2.
Proof.
  intros Hp1 Hp2 Hcsv1 Hcsv2 Heq.
  destruct (converted_path_eq_inv p1 p2 Hcsv1 Hcsv2 Heq) as [Hparent Hname].
  rewrite (path_split p1 Hp1), (path_split p2 Hp2).
  by rewrite Hparent, Hname.
Qed.

(** ** The counters of the batch driver *)

Lemma processed_app o1 o2 : processed (o1 ++ o2) = processed o1 ++ processed o2.
Proof. unfold processed. apply omap_app. Qed.

Lemma errors_app o1 o2 : errors (o1 ++ o2) = errors o1 + errors o2.
Proof. unfold errors. by rewrite filter_app, length_app. Qed.

Lemma errors_cons m o :
  errors (m :: o) = (if is_error_line m then 1 else 0) + errors o.
Proof.
  unfold errors. rewrite filter_cons.
  destruct (is_error_line m); by case_decide.
Qed.

Lemma errors_nil : errors [] = 0.
Proof. reflexivity. Qed.

Lemma added_messages_column A B :
  Forall (λ m, ¬ missing_column_line m) (added_messages A B).
Proof.
  unfold added_messages. destruct (0 <? _); [|done].
  apply Forall_singleton. by intros [].
Qed.

Lemma read_error_message_column p files e :
  read_error p files = Some e → ¬ missing_column_line (error_message p e).
Proof.
  unfold read_error.
  destruct (lookup_path p files) as [[|[|t]]|]; intros [= <-]; by intros [].
Qed.

Lemma write_error_column p files :
  ¬ missing_column_line (Convert_error (write_error p files)).
Proof.
  unfold write_error. destruct (lookup_path p files) as [[|c]|]; by intros [].
Qed.

Ltac account :=
  repeat split; rewrite ?errors_cons, ?errors_nil;
  cbn [is_error_line processed omap length app];
  try done; try lia;
  repeat (first [ apply Forall_nil_2
                | apply Forall_cons; split; [by intros []|]
                | apply Forall_app; split
                | apply added_messages_column
                | apply Forall_singleton; apply write_error_column
                | apply Forall_singleton; by intros [] ]);
  try done.

Lemma processed_added A B : processed (added_messages A B) = [].
Proof. unfold added_messages. by destruct (0 <? _). Qed.

Lemma errors_added A B : errors (added_messages A B) = 0.
Proof. unfold added_messages. by destruct (0 <? _). Qed.

Lemma processed_error_message p e : processed [error_message p e] = [].
Proof. unfold error_message. by destruct (is_FileNotFoundError e). Qed.

Lemma errors_error_message p e : errors [error_message p e] = 1.
Proof. unfold error_message. by destruct (is_FileNotFoundError e). Qed.

(** One turn of the loop: the file is announced once, and exactly one of
    three things happens: it is counted as converted and its output file
    is added, it is counted as skipped, or an error line is printed. *)
Lemma main_body_account r p c s st :
  ∃ c' s' new h' o',
    main_body r p (c, s) st =
      (Ok (c', s'),
       mkState (fs st ++ new) (heap st ++ h') (stdout st ++ o')) ∧
    processed o' = [name p] ∧
    c' = c + length new ∧ s ≤ s' ∧
    (c' - c) + (s' - s) + errors o' = 1 ∧
    Forall (λ m, ¬ missing_column_line m) o'.
Proof.
  destruct (already_converted (fs st) p) eqn:Hcls.
  { exists c, (s + 1), [], [], [Main_processing (name p); Main_skip_converted (name p)].
    rewrite !app_nil_r. split; [by apply main_body_skip|].
    account. }
  destruct (path_exists (converted_path p) (fs st)) eqn:Hex.
  { exists c, (s + 1), [], [],
      [Main_processing (name p); Main_skip_exists (name p) (name (converted_path p))].
    rewrite !app_nil_r. split; [by apply main_body_exists|].
    account. }
  rewrite main_body_convert by done.
  pose proof (path_exists_false_lookup _ _ (converted_path_not_nil p) Hex) as Hnone.
  destruct (read_error p (fs st)) as [e|] eqn:Herr.
  { rewrite (convert_read_error (processing st p) p _ _ e Herr).
    exists c, s, [], [], ([Main_processing (name p)] ++ [error_message p e]).
    unfold processing. cbn [fs heap stdout]. rewrite !app_nil_r, <- !app_assoc.
    split; [reflexivity|].
    rewrite processed_app, errors_app, processed_error_message, errors_error_message.
    account. apply Forall_singleton. by eapply read_error_message_column. }
  apply read_error_None in Herr as [t Ht].
  destruct (getitem (parse_table t) "ID Subjektu") as [col|] eqn:Hcol.
  2:{ apply getitem_None_columns in Hcol.
      exfalso. apply Hcol. by eapply already_converted_false_column. }
  destruct (writable (converted_path p) (fs st)) eqn:Hw.
  - rewrite (convert_ok (processing st p) p (Some (converted_path p)) (Some r)
               t col Ht Hcol Hw).
    cbn [fs heap stdout processing output_path].
    unfold write_file. rewrite Hnone.
    eexists (c + 1), s, _, _, _.
    rewrite <- !app_assoc. split; [reflexivity|].
    rewrite !processed_app, !errors_app, processed_added, errors_added.
    account.
  - rewrite (convert_write_error (processing st p) p (Some (converted_path p))
               (Some r) t col Ht Hcol Hw).
    cbn [fs heap stdout processing output_path].
    eexists c, s, [], _, _.
    rewrite app_nil_r, <- !app_assoc. split; [reflexivity|].
    rewrite !processed_app, !errors_app, processed_added, errors_added.
    account.
Qed.

Lemma main_loop_account r l c s st :
  ∃ c' s' new h' o',
    for_each l (main_body r) (c, s) st =
      (Ok (c', s'),
       mkState (fs st ++ new) (heap st ++ h') (stdout st ++ o')) ∧
    processed o' = name <$> l ∧
    c' = c + length new ∧ s ≤ s' ∧
    (c' - c) + (s' - s) + errors o' = length l ∧
    Forall (λ m, ¬ missing_column_line m) o'.
Proof.
  revert c s st. induction l as [|p l IH]; intros c s st.
  - exists c, s, [], [], []. rewrite !app_nil_r. destruct st.
    account.
  - destruct (main_body_account r p c s st)
      as (c1 & s1 & new1 & h1 & o1 & Hstep & Hp1 & Hc1 & Hs1 & Hsum1 & Hcol1).
    cbn [for_each]. rewrite (run_bind_ok _ _ _ _ _ Hstep).
    set (st1 := mkState _ _ _).
    destruct (IH c1 s1 st1)
      as (c2 & s2 & new2 & h2 & o2 & Hloop & Hp2 & Hc2 & Hs2 & Hsum2 & Hcol2).
    unfold st1 in *. cbn [fs heap stdout] in *.
    exists c2, s2, (new1 ++ new2), (h1 ++ h2), (o1 ++ o2).
    rewrite !(assoc_L (++)). split; [exact Hloop|].
    rewrite processed_app, errors_app, length_app, Hp1, Hp2.
    account.
Qed.

Lemma processed_nil_Forall o :
  Forall (λ m, ∀ n, m ≠ Main_processing n) o → processed o = [].
Proof.
  induction 1 as [|m o Hm _ IH]; [done|].
  unfold processed in *. cbn [omap list_omap]. rewrite IH.
  destruct m; try done. by destruct (Hm file_name).
Qed.

Lemma errors_0_Forall o :
  Forall (λ m, is_error_line m = false) o → errors o = 0.
Proof.
  induction 1 as [|m o Hm _ IH]; [done|]. by rewrite errors_cons, Hm, IH.
Qed.

Lemma merge_messages_lines files :
  Forall (λ m, (∀ n, m ≠ Main_processing n) ∧ is_error_line m = false)
         (merge_messages files).
Proof.
  unfold merge_messages. case_bool_decide; [done|].
  apply Forall_app. split; [by apply Forall_singleton|].
  apply Forall_app. split.
  - apply Forall_fmap, Forall_true. intros p. unfold compose, merge_file_message.
    destruct (lookup_path p files) as [[|[|t]]|]; try done.
    by destruct (merge_id_column (parse_table t)).
  - case_bool_decide; [done | by apply Forall_singleton].
Qed.

Lemma processed_merge_messages files : processed (merge_messages files) = [].
Proof.
  apply processed_nil_Forall.
  eapply Forall_impl; [apply merge_messages_lines|]. by intros m [? _].
Qed.

Lemma errors_merge_messages files : errors (merge_messages files) = 0.
Proof.
  apply errors_0_Forall.
  eapply Forall_impl; [apply merge_messages_lines|]. by intros m [_ ?].
Qed.

(** X8: a run over an input folder with CSV files ends with the summary.
    Each CSV file that the folder held at the start is announced once, in
    the order of enumeration; the count of converted files is the number
    of files the run has created; and the files are accounted for: each is
    converted, or skipped, or has one error line of the converter.  The
    line on merged identifiers is printed whenever the pool is not empty,
    whether or not a file was converted. *)
Theorem main_summary files :
  path_exists ["input"] files = true →
  glob_csv ["input"] files ≠ [] →
  ∃ new h o c s,
    main (initial files) =
      (Ok (),
       mkState (files ++ new) h
               (o ++ [Main_complete; Main_converted c; Main_skipped s] ++
                  (if bool_decide (merge_pool files = ∅) then [] else [Main_merged]))) ∧
    processed o = name <$> glob_csv ["input"] files ∧
    c = length new ∧
    c + s + errors o = length (glob_csv ["input"] files).
Proof.
  intros Hex Hglob.
  destruct (main_unfold (initial files) Hex) as [h1 Hmain]. cbv zeta in Hmain.
  rewrite Hmain. cbn [initial fs heap stdout length]. clear Hmain.
  rewrite bool_decide_false by done.
  set (st_m := mkState _ _ _).
  destruct (main_loop_account 0 (glob_csv ["input"] files) 0 0 st_m)
    as (c & s & new & h' & o' & Hloop & Hproc & Hc & _ & Hsum & _).
  rewrite Hloop. unfold st_m. cbn [fs heap stdout app].
  eexists new, _, _, c, s. unfold summary. cbn [fst snd].
  replace (deref ((merge_pool files :: h1) ++ h') 0) with (merge_pool files) by done.
  split; [reflexivity|].
  rewrite !processed_app, !errors_app, processed_merge_messages, errors_merge_messages.
  simpl. split; [done|]. split; lia.
Qed.

(** ** How a run ends *)















(** X10: with an input folder that holds no CSV file, the run builds the
    pool, prints what the builder prints and then the line that no CSV
    file was found; it prints no summary and leaves the file system as it
    is. *)
Theorem main_no_csv_files files :
  path_exists ["input"] files = true →
  glob_csv ["input"] files = [] →
  ∃ h,
    main (initial files) =
      (Ok (), mkState files h (merge_messages files ++ [Main_no_csv_files])) ∧
    h !! 0 = Some (merge_pool files).
Proof.
  intros Hex Hglob.
  destruct (main_unfold (initial files) Hex) as [h1 Hmain]. cbv zeta in Hmain.
  rewrite Hmain. cbn [initial fs heap stdout length app].
  rewrite bool_decide_true by done. eexists. split; reflexivity.
Qed.

(** ** What a run converts *)

Lemma is_dir_app_true p files new :
  is_dir p files = true → is_dir p (files ++ new) = true.
Proof.
  destruct p as [|d p]; [done|]. unfold is_dir.
  rewrite !bool_decide_eq_true, lookup_path_app. by intros ->.
Qed.

Lemma parent_converted_path p : parent (converted_path p) = parent p.
Proof. unfold converted_path. apply parent_joinpath. Qed.

(** X11: one file does not hold up another.  Every CSV file of the input
    folder that can be read, has the column "ID Subjektu", does not carry
    the marker in its name and has no file at its output path is
    converted by the run, whatever else the folder holds: afterwards its
    output file has the identifiers of the file and of the pool, sorted. *)
Theorem main_converts files src t col :
  src ∈ glob_csv ["input"] files →
  lookup_path src files = Some (File (CsvText t)) →
  getitem (parse_table t) "ID Subjektu" = Some col →
  endswith (stem src) "_converted" = false →
  lookup_path (converted_path src) files = None →
  ∃ st',
    main (initial files) = (Ok (), st') ∧
    lookup_path (converted_path src) (fs st') =
      Some (id_file (sorted (elements (column_ids col ∪ merge_pool files)))).
Proof.
  intros Hsrc Ht Hcol Hstem Hnone.
  destruct (main_run (initial files)) as (new & h & o & Hrun & Hnew & Hsettled).
  cbn [initial fs heap stdout] in *.
  eexists. split; [exact Hrun|]. cbn [fs].
  pose proof Hsrc as (Hdir & Hmem & Hne & Hparent & Hcsv)%elem_of_glob_csv.
  assert (Hcls : already_converted files src = false).
  { unfold already_converted, header_converted. rewrite Hstem, Ht.
    assert (Hin : "ID Subjektu" ∈ columns (parse_table t))
      by (apply getitem_Some_columns; eauto).
    rewrite (bool_decide_true _ Hin).
    destruct (_ && _) eqn:Hone; [|done].
    apply andb_true_iff in Hone as [Hlen Hid].
    apply Nat.eqb_eq in Hlen. apply bool_decide_eq_true in Hid.
    destruct (columns (parse_table t)) as [|c0 [|c1 cols]]; simplify_eq/=.
    by apply list_elem_of_singleton in Hin. }
  assert (Hsome : is_Some (lookup_path src files)) by (rewrite Ht; eauto).
  pose proof (output_of_only_files _ _ _ _ Hnew) as Hfiles.
  destruct (Hsettled src Hsrc) as [H|[H|[H|H]]].
  - rewrite already_converted_app in H by done. congruence.
  - rewrite path_exists_lookup in H by apply converted_path_not_nil.
    apply bool_decide_eq_true in H as [n Hn].
    rewrite lookup_path_app, Hnone in *.
    pose proof (lookup_path_Some_elem _ _ _ (converted_path_not_nil src) Hn) as Hin.
    rewrite Forall_forall in Hnew.
    destruct (Hnew _ Hin) as (src' & rows & Hsrc' & Hrows & [= Hpath ->] & _).
    apply elem_of_glob_csv in Hsrc' as (_ & _ & Hne' & _ & Hcsv').
    destruct (converted_path_eq_inv _ _ Hcsv Hcsv' Hpath) as [Hpar Hnam].
    assert (src' = src) as ->.
    { rewrite (path_split src' Hne'), (path_split src Hne). by rewrite Hpar, Hnam. }
    apply converted_rows_Some in Hrows as (t' & col' & Ht' & Hcol' & ->).
    rewrite Hn. by simplify_eq.
  - rewrite read_error_app in H by done. unfold read_error in H.
    rewrite Ht in H. by destruct H.
  - exfalso. unfold writable in H. rewrite lookup_path_app, Hnone in H.
    destruct (lookup_path (converted_path src) new) as [n|] eqn:Hn.
    + destruct (lookup_only_files _ _ _ (converted_path_not_nil src) Hfiles Hn)
        as [c ->]. done.
    + rewrite parent_converted_path, Hparent in H.
      by rewrite (is_dir_app_true _ _ _ Hdir) in H.
Qed.

(** ** Missing values *)

Lemma merge_pool_not_na files x : x ∈ merge_pool files → x ∉ STR_NA_VALUES.
Proof.
  unfold merge_pool. rewrite elem_of_union_list.
  intros (X & HX & Hx). apply list_elem_of_fmap in HX as (p & -> & _).
  apply elem_of_merge_file_ids in Hx as (t & c & col & _ & _ & Hget & Hx).
  by eapply getitem_parse_table_not_na.
Qed.

(** X12: an identifier spelled like one of the markers that [pd.read_csv]
    reads as a missing value ("NA", "None", "null", "nan", ...) is lost:
    no row of a file that a run creates is such a marker. *)
Theorem run_drops_na_markers files :
  ∃ st',
    main (initial files) = (Ok (), st') ∧
    ∀ p rows x,
      lookup_path p files = None →
      lookup_path p (fs st') = Some (id_file rows) →
      x ∈ rows → x ∉ STR_NA_VALUES.
Proof.
  destruct (main_run (initial files)) as (new & h1 & o1 & Hrun & Hnew & _).
  cbn [initial fs heap stdout] in *.
  eexists. split; [exact Hrun|]. cbn [fs].
  intros p rows x Hp. rewrite lookup_path_app, Hp.
  intros Hin Hx.
  apply lookup_path_Some_elem in Hin; [|by eapply lookup_path_None_not_nil].
  rewrite Forall_forall in Hnew.
  destruct (Hnew _ Hin) as (src & rows' & _ & Hrows & [= -> ->] & _).
  apply converted_rows_Some in Hrows as (t & col & _ & Hcol & ->).
  rewrite elem_of_sorted, elem_of_elements, elem_of_union, elem_of_column_ids in Hx.
  destruct Hx as [Hx|Hx].
  - by eapply getitem_parse_table_not_na.
  - by apply (merge_pool_not_na files).
Qed.

(** ** The store during the build of the pool *)

(** X13: the builder of the pool never raises, writes no file, leaves
    every set object that exists as it is, and returns a reference to a
    new object. *)
Theorem get_merge_ids_frame st :
  ∃ st',
    get_merge_ids st = (Ok (length (heap st)), st') ∧
    fs st' = fs st ∧
    length (heap st) < length (heap st') ∧
    ∀ r, r < length (heap st) → heap st' !! r = heap st !! r.
Proof.
  destruct (get_merge_ids_spec st) as [h' Hspec].
  eexists. split; [exact Hspec|]. cbn [fs heap]. split; [done|]. split.
  - rewrite !length_app. simpl. lia.
  - intros r Hr. by rewrite lookup_app_l.
Qed.

(** ** The launcher *)

(** X14: the launcher does not pass on the return code of [main.py].  It
    ends with status 1 exactly when the folder [venv] is missing or
    [subprocess.run] raises; when the child process ends, with whatever
    return code, the launcher ends with status 0 on the files the child has
    left, and a failure of the child shows only in the line "finished with
    errors", which is never printed together with the status 1. *)
Theorem run_main_exit_status (nt : bool) subprocess_run files :
  let python_path : Path :=
    if nt then ["venv"; "Scripts"; "python"] else ["venv"; "bin"; "python"] in
  let completed (rc : nat) (f : FileSystem) (o : list msg) :=
    path_exists ["venv"] files = true ∧
    subprocess_run python_path files = Completed rc f o in
  let '(status, files', out) := run_main nt subprocess_run files in
  (status = 0 ↔ ∃ rc f o, completed rc f o) ∧
  (status ≠ 0 → status = 1) ∧
  (∀ rc f o, completed rc f o → files' = f) ∧
  (Run_success ∈ out ↔ ∃ f o, completed 0 f o) ∧
  (Run_finished_with_errors ∈ out ↔ ∃ rc f o, rc ≠ 0 ∧ completed rc f o).
Proof.
  cbv zeta. unfold run_main.
  destruct (path_exists ["venv"] files) eqn:Hvenv; cbn [negb].
  2:{ split; [split; [done | by intros (? & ? & ? & ? & _)]|].
      split; [done|]. split; [by intros ? ? ? [? _]|].
      rewrite !elem_of_cons, !elem_of_nil.
      split; (split; [intuition congruence|]).
      - by intros (? & ? & ? & _).
      - by intros (? & ? & ? & _ & ? & _). }
  replace (if nt then ["venv"] ++ ["Scripts"; "python"]
           else ["venv"] ++ ["bin"; "python"])
    with (if nt then ["venv"; "Scripts"; "python"] else ["venv"; "bin"; "python"])
    by (by destruct nt).
  set (python_path := if nt then _ else _).
  assert (Hin : ∀ (o : list msg) m pre post, (∀ c, m ≠ Run_child c) →
                  m ∈ pre ++ (Run_child <$> o) ++ post ↔ m ∈ pre ∨ m ∈ post).
  { intros o m pre post Hm. rewrite !elem_of_app, list_elem_of_fmap. split.
    - intros [?|[(c & -> & _)|?]]; [by left | by destruct (Hm c) | by right].
    - intros [?|?]; [by left | by right; right]. }
  destruct (subprocess_run python_path files) as [rc f o| |f o|f o] eqn:Hrun.
  - split; [split; [intros _; by exists rc, f, o | done]|].
    split; [done|]. split; [by intros ? ? ? [_ [= _ -> _]]|].
    rewrite !Hin by done. cbn [app]. rewrite !elem_of_cons, !elem_of_nil.
    destruct (rc =? 0) eqn:Hrc.
    + apply Nat.eqb_eq in Hrc as ->. split.
      * split; [intros _; by exists f, o | tauto].
      * split; [intuition congruence|].
        by intros (rc & ? & ? & Hne & _ & [= <- _ _]).
    + apply Nat.eqb_neq in Hrc. split.
      * split; [intuition congruence|]. by intros (? & ? & _ & [= -> _ _]).
      * split; [intros _; by exists rc, f, o | tauto].
  - split; [split; [done | by intros (? & ? & ? & _ & ?)]|].
    split; [done|]. split; [by intros ? ? ? [_ ?]|].
    rewrite !elem_of_cons, !elem_of_nil.
    split; (split; [intuition congruence|]).
    + by intros (? & ? & _ & ?).
    + by intros (? & ? & ? & _ & _ & ?).
  - split; [split; [done | by intros (? & ? & ? & _ & ?)]|].
    split; [done|]. split; [by intros ? ? ? [_ ?]|].
    rewrite !(Hin o _ [Run_running; Run_rule] [Run_interrupted]) by done.
    rewrite !elem_of_cons, !elem_of_nil.
    split; (split; [intuition congruence|]).
    + by intros (? & ? & _ & ?).
    + by intros (? & ? & ? & _ & _ & ?).
  - split; [split; [done | by intros (? & ? & ? & _ & ?)]|].
    split; [done|]. split; [by intros ? ? ? [_ ?]|].
    rewrite !(Hin o _ [Run_running; Run_rule] [Run_error]) by done.
    rewrite !elem_of_cons, !elem_of_nil.
    split; (split; [intuition congruence|]).
    + by intros (? & ? & _ & ?).
    + by intros (? & ? & ? & _ & _ & ?).
Qed.

(** ** The check of the column within a run *)

Lemma merge_messages_column files :
  Forall (λ m, ¬ missing_column_line m) (merge_messages files).
Proof.
  unfold merge_messages. case_bool_decide; [done|].
  apply Forall_app. split; [apply Forall_singleton; by intros []|].
  apply Forall_app. split.
  - apply Forall_fmap, Forall_true. intros p. unfold compose, merge_file_message.
    destruct (lookup_path p files) as [[|[|t]]|]; try (by intros []).
    destruct (merge_id_column (parse_table t)); by intros [].
  - case_bool_decide; [done|]. apply Forall_singleton. by intros [].
Qed.

(** X15: within a run the converter never fails for want of the column
    "ID Subjektu": the driver hands it only files the classifier could not
    read or found to have the column, so the error line for a missing
    column is never printed. *)
Theorem main_never_missing_column files :
  ∃ st',
    main (initial files) = (Ok (), st') ∧
    Forall (λ m, ¬ missing_column_line m) (stdout st').
Proof.
  destruct (path_exists ["input"] files) eqn:Hex.
  2:{ eexists. split; [by apply main_no_input|]. cbn [stdout initial app].
      apply Forall_cons. split; [by intros []|].
      apply Forall_singleton. by intros []. }
  destruct (main_unfold (initial files) Hex) as [h1 Hmain]. cbv zeta in Hmain.
  rewrite Hmain. cbn [initial fs heap stdout length app]. clear Hmain.
  case_bool_decide as Hnil.
  { eexists. split; [reflexivity|]. cbn [stdout].
    apply Forall_app. split; [apply merge_messages_column|].
    apply Forall_singleton. by intros []. }
  set (st_m := mkState _ _ _).
  destruct (main_loop_account 0 (glob_csv ["input"] files) 0 0 st_m)
    as (c & s & new & h' & o' & Hloop & _ & _ & _ & _ & Hcol).
  rewrite Hloop. unfold st_m. cbn [fs heap stdout app].
  eexists. split; [reflexivity|]. cbn [stdout]. unfold summary.
  repeat (apply Forall_app; split); try done.
  - apply merge_messages_column.
  - apply Forall_singleton. by intros [].
  - repeat (apply Forall_cons; split; [by intros []|]). done.
  - case_bool_decide; [done|]. apply Forall_singleton. by intros [].
Qed.

(** ** Converting twice *)

Lemma replace_path_id p n (files : FileSystem) :
  lookup_entry p files = Some n → replace_path p n files = files.
Proof.
  induction files as [|[q m] files IH]; [done|]. cbn [lookup_entry replace_path].
  destruct (decide (q = p)) as [->|Hne]; [by intros [= ->]|].
  intros H. by rewrite IH.
Qed.

Lemma write_file_idem p n (files : FileSystem) :
  p ≠ [] → write_file p n (write_file p n files) = write_file p n files.
Proof.
  intros Hp.
  unfold write_file at 1. rewrite lookup_write_file, decide_True by done.
  apply replace_path_id.
  pose proof (lookup_write_file p p n files Hp) as H.
  rewrite decide_True in H by done. by destruct p.
Qed.

Lemma pool_app st h' o' files merge_ids :
  match merge_ids with Some r => r < length (heap st) | None => True end →
  pool (mkState files (heap st ++ h') o') merge_ids = pool st merge_ids.
Proof.
  destruct merge_ids as [r|]; [|done]. intros Hr. simpl. by apply deref_app_l.
Qed.

(** X16: converting a file a second time, to an output path other than
    the input, with the same pool, writes the same output again: the file
    system after the second call is the one after the first. *)
Theorem convert_twice st input_file output_file merge_ids t col :
  lookup_path input_file (fs st) = Some (File (CsvText t)) →
  getitem (parse_table t) "ID Subjektu" = Some col →
  writable (output_path input_file output_file) (fs st) = true →
  output_path input_file output_file ≠ input_file →
  match merge_ids with Some r => r < length (heap st) | None => True end →
  ∃ st1 st2,
    convert_csv_with_merge input_file output_file merge_ids st =
      (Ok (Some (output_path input_file output_file)), st1) ∧
    convert_csv_with_merge input_file output_file merge_ids st1 =
      (Ok (Some (output_path input_file output_file)), st2) ∧
    fs st2 = fs st1.
Proof.
  intros Hin Hcol Hw Hne Hr.
  pose proof (writable_not_nil _ _ Hw) as Hnil.
  eexists _, _. split; [exact (convert_ok _ _ _ merge_ids _ _ Hin Hcol Hw)|].
  set (st1 := mkState _ _ _).
  assert (Hin1 : lookup_path input_file (fs st1) = Some (File (CsvText t))).
  { unfold st1. cbn [fs]. by rewrite lookup_write_file, decide_False by done. }
  assert (Hw1 : writable (output_path input_file output_file) (fs st1) = true).
  { unfold writable, st1. cbn [fs].
    by rewrite lookup_write_file, decide_True by done. }
  split; [exact (convert_ok _ _ _ merge_ids _ _ Hin1 Hcol Hw1)|].
  cbn [fs]. unfold st1 at 1. rewrite (pool_app st _ _ _ merge_ids Hr).
  unfold st1. cbn [fs]. by apply write_file_idem.
Qed.

End further.

(** ** The further properties at sample inputs *)

Section further_samples.
#[local] Existing Instance text_parser.

Lemma convert_overwrites_witness :
  ∃ st',
    convert_csv_with_merge ["input"; "other.csv"] (Some ["input"; "other.csv"]) None
      (initial [(["input"; "other.csv"], File (CsvText [("ID Subjektu", ["b"; "a"])]))]) =
      (Ok (Some ["input"; "other.csv"]), st') ∧
    lookup_path ["input"; "other.csv"] (fs st') =
      Some (id_file (sorted (elements (column_ids [Some "b"; Some "a"] ∪ ∅)))) ∧
    (∀ q, q ≠ ["input"; "other.csv"] →
          lookup_path q (fs st') =
          lookup_path q [(["input"; "other.csv"],
                          File (CsvText [("ID Subjektu", ["b"; "a"])]))]) ∧
    (fs st').*1 = [["input"; "other.csv"]].
Proof.
  apply (convert_overwrites
           (initial [(["input"; "other.csv"],
                      File (CsvText [("ID Subjektu", ["b"; "a"])]))])
           ["input"; "other.csv"] ["input"; "other.csv"] None
           [("ID Subjektu", ["b"; "a"])] [Some "b"; Some "a"]
           (CsvText [("ID Subjektu", ["b"; "a"])])).
  - reflexivity.
  - reflexivity.
  - reflexivity.
Defined.

Lemma convert_report_witness :
  ∃ st' rows,
    convert_csv_with_merge ["input"; "test_input.csv"] None (Some 0) test_state =
      (Ok (Some ["input"; "test_input_converted.csv"]), st') ∧
    lookup_path ["input"; "test_input_converted.csv"] (fs st') = Some (id_file rows) ∧
    stdout st' =
      [] ++
      (if bool_decide (pool test_state (Some 0) ⊆
                       column_ids [Some "TEST-001"; Some "TEST-002";
                                   Some "MERGE-001"; None]) then []
       else [Convert_added
               (size (pool test_state (Some 0) ∖
                      column_ids [Some "TEST-001"; Some "TEST-002";
                                  Some "MERGE-001"; None]))]) ++
      [Convert_success (length rows) ["input"; "test_input.csv"]
         ["input"; "test_input_converted.csv"]].
Proof.
  apply (convert_report test_state ["input"; "test_input.csv"] None (Some 0)
           test_input).
  - reflexivity.
  - reflexivity.
  - reflexivity.
Defined.

Lemma convert_pool_contents_witness :
  convert_csv_with_merge ["input"; "test_input.csv"] None (Some 0) test_state_reordered =
  convert_csv_with_merge ["input"; "test_input.csv"] None None test_state_reordered.
Proof.
  apply (convert_pool_contents test_state_reordered ["input"; "test_input.csv"]
           None (Some 0) None).
  reflexivity.
Defined.

Lemma converted_path_name_witness :
  converted_path ["input"; "a.b.csv"] = joinpath ["input"] ("a.b" +:+ "_converted" +:+ ".csv") ∧
  converted_path ["input"; "README"] = joinpath ["input"] ("README" +:+ "_converted").
Proof.
  destruct (converted_path_name ["input"; "a.b.csv"]) as [Hext _].
  destruct (converted_path_name ["input"; "README"]) as [_ Hplain].
  split.
  - apply (Hext "a.b" "csv"); [reflexivity | done | done | reflexivity].
  - apply Hplain. reflexivity.
Defined.

Lemma converted_path_inj_witness :
  ["input"; "a.csv"] = ["input"; "a.csv"].
Proof.
  apply (converted_path_inj ["input"; "a.csv"] ["input"; "a.csv"]);
    [done | done | reflexivity | reflexivity | reflexivity].
Defined.

Lemma main_summary_witness :
  ∃ new h o c s,
    main (initial test_files) =
      (Ok (),
       mkState (test_files ++ new) h
               (o ++ [Main_complete; Main_converted c; Main_skipped s] ++
                  (if bool_decide (merge_pool test_files = ∅) then [] else [Main_merged]))) ∧
    processed o = name <$> glob_csv ["input"] test_files ∧
    c = length new ∧
    c + s + errors o = length (glob_csv ["input"] test_files).
Proof.
  apply (main_summary test_files).
  - reflexivity.
  - compute_done.
Defined.


Lemma main_no_csv_files_witness :
  ∃ h,
    main (initial [(["input"], Directory); (["input"; "notes.txt"], File Malformed)]) =
      (Ok (), mkState [(["input"], Directory); (["input"; "notes.txt"], File Malformed)]
                      h
                      (merge_messages [(["input"], Directory);
                                       (["input"; "notes.txt"], File Malformed)] ++
                       [Main_no_csv_files])) ∧
    h !! 0 = Some (merge_pool [(["input"], Directory);
                               (["input"; "notes.txt"], File Malformed)]).
Proof.
  apply (main_no_csv_files
           [(["input"], Directory); (["input"; "notes.txt"], File Malformed)]).
  - reflexivity.
  - reflexivity.
Defined.

Lemma main_converts_witness :
  ∃ st',
    main (initial test_files) = (Ok (), st') ∧
    lookup_path (converted_path ["input"; "test_input.csv"]) (fs st') =
      Some (id_file (sorted (elements
        (column_ids [Some "TEST-001"; Some "TEST-002"; Some "MERGE-001"; None]
           ∪ merge_pool test_files)))).
Proof.
  apply (main_converts test_files ["input"; "test_input.csv"] test_input).
  - compute_done.
  - reflexivity.
  - reflexivity.
  - reflexivity.
  - reflexivity.
Defined.

Lemma run_main_exit_status_witness :
  (run_main false failing_child [(["venv"], Directory)]).1.1 = 0 ∧
  Run_finished_with_errors ∈ (run_main false failing_child [(["venv"], Directory)]).2 ∧
  Run_success ∉ (run_main false failing_child [(["venv"], Directory)]).2.
Proof.
  pose proof (run_main_exit_status false failing_child [(["venv"], Directory)]) as H.
  cbv zeta in H.
  destruct (run_main false failing_child [(["venv"], Directory)]) as [[status f] out].
  destruct H as (Hstatus & _ & _ & Hsuccess & Herrors). cbn [fst snd].
  split; [|split].
  - apply Hstatus. by exists 1, [(["venv"], Directory)], [].
  - apply Herrors. by exists 1, [(["venv"], Directory)], [].
  - intros (f' & o' & _ & Hrun)%Hsuccess. discriminate Hrun.
Defined.

Lemma convert_twice_witness :
  ∃ st1 st2,
    convert_csv_with_merge ["input"; "test_input.csv"] None (Some 0) test_state =
      (Ok (Some ["input"; "test_input_converted.csv"]), st1) ∧
    convert_csv_with_merge ["input"; "test_input.csv"] None (Some 0) st1 =
      (Ok (Some ["input"; "test_input_converted.csv"]), st2) ∧
    fs st2 = fs st1.
Proof.
  apply (convert_twice test_state ["input"; "test_input.csv"] None (Some 0)
           test_input
           [Some "TEST-001"; Some "TEST-002"; Some "MERGE-001"; None]).
  - reflexivity.
  - reflexivity.
  - reflexivity.
  - done.
  - simpl. lia.
Defined.

End further_samples.
